(** * Collision avoidance system: a shallow embedding of [app.py]

    The development follows the source top to bottom: Python numbers,
    exceptions, the random module, the three methods of
    [CollisionAvoidanceSystem], the two endpoints, and then the properties
    of the specification.

    Numbers.  Two models of Python's numbers are used.

    The exact model ([pyfloat]) has a finite value, the two infinities
    and NaN; finite values are rationals and [+], [-], [*], [/] and
    [round] are the exact operations.  It keeps the behaviour of
    comparisons, [min] and the arithmetic on infinities and NaN, and
    leaves out what depends on the machine representation: the rounding
    of every result to binary64, the overflow of a result to an infinity
    and the [OverflowError] of an [int] too large for a [float].  The
    properties of the advice, of the simulation and of the scenario are
    stated on it.

    The binary64 model ([Binary64.pynum]) has Python's two kinds of
    number, the unbounded [int] and the IEEE-754 binary64 [float] of the
    Standard Library's [SpecFloat], with the conversions, the rounding
    and the exceptions of Python's [+], [<=] and [/].  The behaviour of
    [calculate_ttc] on every number, its failures included, is stated on
    it.

    Dictionaries are finite maps with string keys; a missing key raises
    [KeyError] as in Python.  The request body of the endpoint is a
    dictionary of numbers.

    Randomness.  The state of the [random] module is the stream of the
    values its next calls return; code that draws is written in a state
    and exception monad over that stream. *)

From Stdlib Require Import QArith Qround Qabs Qminmax Lqa Lia.
From Stdlib Require Import SpecFloat.
From stdpp Require Import gmap strings.

Local Open Scope Q_scope.

(** ** Python numbers *)

Inductive pyfloat : Type :=
| Fin (q : Q)
| PInf
| NInf
| NaN.

(** Exceptions the modelled code can raise. *)
Inductive exn : Type :=
| ZeroDivisionError
| OverflowError
| KeyError (k : string)
| TypeError.

Inductive result (A : Type) : Type :=
| Ok (a : A)
| Raise (e : exn).
Arguments Ok {A} a.
Arguments Raise {A} e.

#[global] Instance result_ret : MRet result := fun A a => Ok a.
#[global] Instance result_bind : MBind result := fun A B f m =>
  match m with
  | Ok a => f a
  | Raise e => Raise e
  end.

(** Sign of a rational, for products and quotients with an infinity. *)
Definition Qsgn (q : Q) : Z := Z.sgn (Qnum q).

Definition fneg (x : pyfloat) : pyfloat :=
  match x with
  | Fin q => Fin (- q)
  | PInf => NInf
  | NInf => PInf
  | NaN => NaN
  end.

(** [x + y], exact on finite values. *)
Definition fadd (x y : pyfloat) : pyfloat :=
  match x, y with
  | NaN, _ | _, NaN => NaN
  | Fin a, Fin b => Fin (a + b)
  | PInf, NInf | NInf, PInf => NaN
  | PInf, _ | _, PInf => PInf
  | NInf, _ | _, NInf => NInf
  end.

(** [x - y], exact on finite values. *)
Definition fsub (x y : pyfloat) : pyfloat := fadd x (fneg y).

(** An infinity carrying the sign [s]; a zero sign is the invalid
    operation [inf * 0]. *)
Definition inf_of_sign (s : Z) : pyfloat :=
  match s with
  | Z0 => NaN
  | Zpos _ => PInf
  | Zneg _ => NInf
  end.

Definition fsign (x : pyfloat) : Z :=
  match x with
  | Fin q => Qsgn q
  | PInf => 1%Z
  | NInf => (-1)%Z
  | NaN => 0%Z
  end.

(** [x * y], exact on finite values. *)
Definition fmul (x y : pyfloat) : pyfloat :=
  match x, y with
  | NaN, _ | _, NaN => NaN
  | Fin a, Fin b => Fin (a * b)
  | _, _ => inf_of_sign (fsign x * fsign y)
  end.

(** [x / y], exact on finite values: Python raises [ZeroDivisionError]
    on a zero divisor before anything else is looked at. *)
Definition fdiv (x y : pyfloat) : result pyfloat :=
  match y with
  | Fin b =>
      if Qeq_bool b 0 then Raise ZeroDivisionError
      else match x with
           | Fin a => Ok (Fin (a / b))
           | NaN => Ok NaN
           | _ => Ok (inf_of_sign (fsign x * Qsgn b))
           end
  | NaN => Ok NaN
  | _ =>
      match x with
      | Fin _ => Ok (Fin 0)
      | _ => Ok NaN
      end
  end.

(** [x <= y]; every comparison with a NaN is false. *)
Definition fle (x y : pyfloat) : bool :=
  match x, y with
  | NaN, _ | _, NaN => false
  | Fin a, Fin b => Qle_bool a b
  | NInf, _ | _, PInf => true
  | _, _ => false
  end.

(** [x < y] *)
Definition flt (x y : pyfloat) : bool :=
  match x, y with
  | NaN, _ | _, NaN => false
  | Fin a, Fin b => negb (Qle_bool b a)
  | PInf, _ | _, NInf => false
  | _, _ => true
  end.

(** [x > y] and [x >= y] *)
Definition fgt (x y : pyfloat) : bool := flt y x.
Definition fge (x y : pyfloat) : bool := fle y x.

(** [abs(x)] *)
Definition fabs (x : pyfloat) : pyfloat :=
  match x with
  | Fin q => Fin (Qabs q)
  | PInf | NInf => PInf
  | NaN => NaN
  end.

(** [min(a, b)]: the builtin keeps its first argument unless a later one
    compares strictly below it. *)
Definition pymin (a b : pyfloat) : pyfloat := if flt b a then b else a.

(** Nearest integer to a rational, ties to the even neighbour. *)
Definition round_half_even (s : Q) : Z :=
  let f := Qfloor s in
  let r := s - inject_Z f in
  match Qcompare r (1 # 2) with
  | Lt => f
  | Gt => (f + 1)%Z
  | Eq => if Z.even f then f else (f + 1)%Z
  end.

(** [round(x, ndigits)] for a non-negative [ndigits]: NaN and the
    infinities round to themselves. *)
Definition pyround (x : pyfloat) (ndigits : nat) : pyfloat :=
  match x with
  | Fin q =>
      let p := (10 ^ Z.of_nat ndigits)%Z in
      Fin (inject_Z (round_half_even (q * inject_Z p)) / inject_Z p)
  | _ => x
  end.

(** ** Python values and dictionaries *)

(** The values stored in the dictionaries the code builds: numbers,
    strings, booleans, lists and nested dictionaries. *)
Inductive pyval : Type :=
| VNum (x : pyfloat)
| VStr (s : string)
| VBool (b : bool)
| VList (l : list pyval)
| VDict (d : gmap string pyval).

(** [d[k]]: a missing key raises [KeyError]. *)
Definition getitem {V : Type} (d : gmap string V) (k : string) : result V :=
  match d !! k with
  | Some v => Ok v
  | None => Raise (KeyError k)
  end.

(** [d.get(k, dflt)] *)
Definition dict_get {V : Type} (d : gmap string V) (k : string) (dflt : V) : V :=
  default dflt (d !! k).

(** [v == s] for a string literal [s]: values of another type compare
    unequal, nothing is raised. *)
Definition eq_str (v : pyval) (s : string) : bool :=
  match v with
  | VStr s' => String.eqb s' s
  | _ => false
  end.

(** The number an arithmetic operator sees in a value; [bool] is a
    subclass of [int], everything else is a [TypeError]. *)
Definition as_number (v : pyval) : result pyfloat :=
  match v with
  | VNum x => Ok x
  | VBool b => Ok (Fin (if b then 1 else 0))
  | _ => Raise TypeError
  end.

(** ** The random module *)

(** The shared generator is the stream of the values its next calls of
    [random.random()] return; a call takes the head and leaves the rest. *)
Definition rng : Type := nat -> Q.

(** [random.random()] draws from the half-open interval [0, 1). *)
Definition rng_ok (g : rng) : Prop := forall n : nat, 0 <= g n /\ g n < 1.

(** Code that may use the generator and may raise. *)
Definition M (A : Type) : Type := rng -> result A * rng.

#[global] Instance M_ret : MRet M := fun A a g => (Ok a, g).
#[global] Instance M_bind : MBind M := fun A B f m g =>
  match m g with
  | (Ok a, g') => f a g'
  | (Raise e, g') => (Raise e, g')
  end.

(** Code that does not touch the generator. *)
Definition lift {A : Type} (r : result A) : M A := fun g => (r, g).

(** What is left of the stream after one draw. *)
Definition rng_tail (g : rng) : rng := fun n => g (S n).

Definition random_random : M pyfloat :=
  fun g => (Ok (Fin (g 0%nat)), rng_tail g).

(** [random.uniform(a, b)] is [a + (b - a) * random()]. *)
Definition random_uniform (a b : pyfloat) : M pyfloat :=
  r ← random_random;
  mret (fadd a (fmul (fsub b a) r)).

(** ** class CollisionAvoidanceSystem *)

Record CollisionAvoidanceSystem : Type := {
  critical_ttc_threshold : pyfloat;
  trigger_distance : pyfloat
}.

Definition __init__ : CollisionAvoidanceSystem :=
  {| critical_ttc_threshold := Fin 10; trigger_distance := Fin 500 |}.

Definition calculate_ttc (self : CollisionAvoidanceSystem)
    (distance speed_a speed_b : pyfloat) : result pyfloat :=
  if fle (fadd speed_a speed_b) (Fin 0) then Ok PInf
  else fdiv distance (fadd speed_a speed_b).

Definition calculate_avoidance_maneuver (self : CollisionAvoidanceSystem)
    (car_a car_b : gmap string pyfloat) (ttc : pyfloat) : result (gmap string pyval) :=
  if fgt ttc (critical_ttc_threshold self) then
    Ok (<["status" := VStr "safe"]>
        (<["alert_level" := VStr "none"]>
        (<["advice" := VStr "Maintain safe distance"]> ∅)))
  else
    let maneuvers : list pyval := [] in
    let alert_level := "warning"%string in
    let alert_level := if fle ttc (Fin 5) then "critical"%string else alert_level in
    let maneuvers := maneuvers ++ [VStr "Both vehicles reduce speed immediately"] in
    a ← getitem car_a "speed";
    b ← getitem car_b "speed";
    let maneuvers :=
      if fge a b then
        (maneuvers ++ [VStr "Vehicle A: Steer right onto shoulder"])
          ++ [VStr "Vehicle B: Maintain course, prepare to brake"]
      else
        (maneuvers ++ [VStr "Vehicle B: Steer left onto shoulder"])
          ++ [VStr "Vehicle A: Maintain course, prepare to brake"] in
    Ok (<["status" := VStr "collision_imminent"]>
        (<["alert_level" := VStr alert_level]>
        (<["ttc" := VNum (pyround ttc 2)]>
        (<["maneuvers" := VList maneuvers]>
        (<["safe_maneuver_applied" := VBool true]> ∅))))).

(** The local [success_probability] of [simulate_avoidance]:
    [min(0.95, 0.7 + (avoidance_data["ttc"] / 20))]. *)
Definition success_probability (self : CollisionAvoidanceSystem)
    (avoidance_data : gmap string pyval) : result pyfloat :=
  v ← getitem avoidance_data "ttc";
  t ← as_number v;
  q ← fdiv t (Fin 20);
  mret (pymin (Fin 0.95) (fadd (Fin 0.7) q)).

Definition simulate_avoidance (self : CollisionAvoidanceSystem)
    (car_a car_b : gmap string pyfloat) (avoidance_data : gmap string pyval)
    : M (gmap string pyval) :=
  status ← lift (getitem avoidance_data "status");
  if eq_str status "safe" then
    d ← random_uniform (Fin 50) (Fin 100);
    mret (<["collision_avoided" := VBool true]>
          (<["min_distance" := VNum d]>
          (<["outcome" := VStr "Safe passage"]> ∅)))
  else
    p ← lift (success_probability self avoidance_data);
    r ← random_random;
    let collision_avoided := flt r p in
    '(min_distance, outcome) ←
      (if collision_avoided then
         d ← random_uniform (Fin 5) (Fin 20);
         mret (d, "Close call - collision avoided"%string)
       else
         mret (Fin 0, "COLLISION OCCURRED"%string));
    mret (<["collision_avoided" := VBool collision_avoided]>
          (<["min_distance" := VNum min_distance]>
          (<["outcome" := VStr outcome]> ∅))).

(** [cas_system = CollisionAvoidanceSystem()] *)
Definition cas_system : CollisionAvoidanceSystem := __init__.

(** ** The endpoints *)

(** [POST /api/calculate-collision]; [data] is the request's JSON object. *)
Definition calculate_collision (data : gmap string pyfloat) : M (gmap string pyval) :=
  let car_a : gmap string pyfloat :=
    <["speed" := dict_get data "speed_a" (Fin 0)]>
    (<["position" := dict_get data "position_a" (Fin 0)]> ∅) in
  let car_b : gmap string pyfloat :=
    <["speed" := dict_get data "speed_b" (Fin 0)]>
    (<["position" := dict_get data "position_b" (Fin 500)]> ∅) in
  pb ← lift (getitem car_b "position");
  pa ← lift (getitem car_a "position");
  let distance := fabs (fsub pb pa) in
  sa ← lift (getitem car_a "speed");
  sb ← lift (getitem car_b "speed");
  ttc ← lift (calculate_ttc cas_system distance sa sb);
  avoidance_data ← lift (calculate_avoidance_maneuver cas_system car_a car_b ttc);
  simulation_result ← simulate_avoidance cas_system car_a car_b avoidance_data;
  mret (<["distance" := VNum (pyround distance 2)]>
        (<["ttc" := VNum (pyround ttc 2)]>
        (<["avoidance_advice" := VDict avoidance_data]>
        (<["simulation_result" := VDict simulation_result]>
        (<["car_a" := VDict (VNum <$> car_a)]>
        (<["car_b" := VDict (VNum <$> car_b)]> ∅)))))).

(** [GET /api/generate-random-scenario] *)
Definition generate_random_scenario : M (gmap string pyval) :=
  speed_a ← random_uniform (Fin 60) (Fin 120);
  speed_b ← random_uniform (Fin 60) (Fin 120);
  speed_a_ms ← lift (fdiv speed_a (Fin 3.6));
  speed_b_ms ← lift (fdiv speed_b (Fin 3.6));
  mret (<["speed_a" := VNum (pyround speed_a 1)]>
        (<["speed_b" := VNum (pyround speed_b 1)]>
        (<["speed_a_ms" := VNum (pyround speed_a_ms 1)]>
        (<["speed_b_ms" := VNum (pyround speed_b_ms 1)]> ∅)))).

(** ** Numbers as Python has them: int and binary64 float *)

Module Binary64.

(** The format of a Python [float]. *)
Definition prec : Z := 53.
Definition emax : Z := 1024.

Inductive pynum : Type :=
| PInt (n : Z)
| PFloat (f : spec_float).

Definition pos_inf : spec_float := S754_infinity false.

(** [float(n)]: the nearest binary64 value, ties to even;
    [OverflowError] when that is an infinity. *)
Definition float_of_int (n : Z) : result spec_float :=
  match binary_normalize prec emax n 0 false with
  | S754_infinity _ => Raise OverflowError
  | f => Ok f
  end.

(** An integer as a significand with exponent 0, the operand of the
    correctly rounded quotient of two ints. *)
Definition int_operand (n : Z) : spec_float :=
  match n with
  | Z0 => S754_zero false
  | Zpos p => S754_finite false p 0
  | Zneg p => S754_finite true p 0
  end.

(** A float against an int: Python compares the exact values. *)
Definition float_compare_int (f : spec_float) (n : Z) : option comparison :=
  match f with
  | S754_nan => None
  | S754_infinity s => Some (if s then Lt else Gt)
  | S754_zero _ => Some (0 ?= n)%Z
  | S754_finite s m e =>
      let v := if s then Zneg m else Zpos m in
      Some match e with
           | Zneg k => (v ?= n * 2 ^ Zpos k)%Z
           | _ => (v * 2 ^ e ?= n)%Z
           end
  end.

Definition is_zero (f : spec_float) : bool :=
  match f with
  | S754_zero _ => true
  | _ => false
  end.

(** [x + y]: exact on two ints; an int meeting a float is converted
    first. *)
Definition py_add (x y : pynum) : result pynum :=
  match x, y with
  | PInt a, PInt b => Ok (PInt (a + b))
  | PInt a, PFloat g => f ← float_of_int a; Ok (PFloat (SFadd prec emax f g))
  | PFloat f, PInt b => g ← float_of_int b; Ok (PFloat (SFadd prec emax f g))
  | PFloat f, PFloat g => Ok (PFloat (SFadd prec emax f g))
  end.

(** [x <= y]; false when a NaN is involved. *)
Definition py_le (x y : pynum) : bool :=
  match x, y with
  | PInt a, PInt b => (a <=? b)%Z
  | PFloat f, PFloat g => SFleb f g
  | PFloat f, PInt n =>
      match float_compare_int f n with
      | Some (Lt | Eq) => true
      | _ => false
      end
  | PInt n, PFloat f =>
      match float_compare_int f n with
      | Some (Gt | Eq) => true
      | _ => false
      end
  end.

(** [x / y].  Two ints give the correctly rounded quotient, or
    [OverflowError] when it is too large for a float.  Otherwise an int
    operand is converted first, and the quotient of two floats overflows
    to an infinity without an exception.  A zero divisor raises
    [ZeroDivisionError]; an int converts to zero only when it is 0. *)
Definition py_truediv (x y : pynum) : result pynum :=
  match x, y with
  | PInt a, PInt b =>
      if (b =? 0)%Z then Raise ZeroDivisionError
      else match SFdiv prec emax (int_operand a) (int_operand b) with
           | S754_infinity _ => Raise OverflowError
           | q => Ok (PFloat q)
           end
  | PInt a, PFloat g =>
      f ← float_of_int a;
      if is_zero g then Raise ZeroDivisionError
      else Ok (PFloat (SFdiv prec emax f g))
  | PFloat f, PInt b =>
      g ← float_of_int b;
      if (b =? 0)%Z then Raise ZeroDivisionError
      else Ok (PFloat (SFdiv prec emax f g))
  | PFloat f, PFloat g =>
      if is_zero g then Raise ZeroDivisionError
      else Ok (PFloat (SFdiv prec emax f g))
  end.

Definition calculate_ttc (self : CollisionAvoidanceSystem)
    (distance speed_a speed_b : pynum) : result pynum :=
  s ← py_add speed_a speed_b;
  if py_le s (PInt 0) then Ok (PFloat pos_inf)
  else py_truediv distance s.

End Binary64.

(** ** Notions used in the statements *)

(** The dictionary [simulate_avoidance] returns. *)
Definition simulation_record
    (collision_avoided : bool) (min_distance : pyfloat) (outcome : string)
    : gmap string pyval :=
  <["collision_avoided" := VBool collision_avoided]>
  (<["min_distance" := VNum min_distance]>
  (<["outcome" := VStr outcome]> ∅)).

(** [min(0.95, 0.7 + t / 20)] for each kind of number [t]. *)
Definition probability_of (t : pyfloat) : pyfloat :=
  match t with
  | Fin x => pymin (Fin 0.95) (Fin (0.7 + x / 20))
  | NInf => NInf
  | PInf | NaN => Fin 0.95
  end.

(** The two vehicle dictionaries, the distance and the response the
    endpoint builds from a request. *)
Definition request_car_a (data : gmap string pyfloat) : gmap string pyfloat :=
  <["speed" := dict_get data "speed_a" (Fin 0)]>
  (<["position" := dict_get data "position_a" (Fin 0)]> ∅).

Definition request_car_b (data : gmap string pyfloat) : gmap string pyfloat :=
  <["speed" := dict_get data "speed_b" (Fin 0)]>
  (<["position" := dict_get data "position_b" (Fin 500)]> ∅).

Definition request_distance (data : gmap string pyfloat) : pyfloat :=
  fabs (fsub (dict_get data "position_b" (Fin 500))
             (dict_get data "position_a" (Fin 0))).

Definition response_record (data : gmap string pyfloat) (ttc : pyfloat)
    (avoidance_data simulation_result : gmap string pyval) : gmap string pyval :=
  <["distance" := VNum (pyround (request_distance data) 2)]>
  (<["ttc" := VNum (pyround ttc 2)]>
  (<["avoidance_advice" := VDict avoidance_data]>
  (<["simulation_result" := VDict simulation_result]>
  (<["car_a" := VDict (VNum <$> request_car_a data)]>
  (<["car_b" := VDict (VNum <$> request_car_b data)]> ∅))))).

(** The dictionary the endpoint returns. *)
Definition scenario_record (speed_a speed_b speed_a_ms speed_b_ms : pyfloat)
    : gmap string pyval :=
  <["speed_a" := VNum speed_a]>
  (<["speed_b" := VNum speed_b]>
  (<["speed_a_ms" := VNum speed_a_ms]>
  (<["speed_b_ms" := VNum speed_b_ms]> ∅))).

(** [v] is [x] rounded to [ndigits] decimals: a multiple of
    [10 ^ -ndigits] at most half a unit of the last place away. *)
Definition is_rounding (ndigits : nat) (x v : Q) : Prop :=
  (exists k : Z, v == inject_Z k / inject_Z (10 ^ Z.of_nat ndigits))
  /\ Qabs (v - x) <= (1 # 2) / inject_Z (10 ^ Z.of_nat ndigits).

(** A number the binary64 format can hold: a finite value, standing for
    an [int] or a [float], is below [2 ** 1023] in absolute value. *)
Definition float_sized (x : pyfloat) : Prop :=
  match x with
  | Fin q => Qabs q < inject_Z (2 ^ 1023)
  | _ => True
  end.

(** * Properties *)

(** ** Comparisons of finite numbers are those of the rationals *)

Lemma fle_Fin (a b : Q) : fle (Fin a) (Fin b) = true <-> a <= b.
Proof. simpl. apply Qle_bool_iff. Qed.

Lemma fle_Fin_false (a b : Q) : fle (Fin a) (Fin b) = false <-> b < a.
Proof.
  simpl. split; intros H.
  - apply Qnot_le_lt. intros Hle. apply Qle_bool_iff in Hle. congruence.
  - destruct (Qle_bool a b) eqn:E; [|reflexivity].
    apply Qle_bool_iff in E. lra.
Qed.

Lemma flt_Fin (a b : Q) : flt (Fin a) (Fin b) = true <-> a < b.
Proof.
  simpl. rewrite negb_true_iff. apply (fle_Fin_false b a).
Qed.

Lemma flt_Fin_false (a b : Q) : flt (Fin a) (Fin b) = false <-> b <= a.
Proof.
  simpl. rewrite negb_false_iff. apply Qle_bool_iff.
Qed.

Lemma Qeq_bool_false (a b : Q) : Qeq_bool a b = false <-> ~ a == b.
Proof.
  split; intros H.
  - intros E. apply Qeq_bool_iff in E. congruence.
  - destruct (Qeq_bool a b) eqn:E; [|reflexivity].
    apply Qeq_bool_iff in E. contradiction.
Qed.

(** Turn the boolean comparisons of finite numbers in the context and the
    goal into order facts on [Q]. *)
Ltac fcmp :=
  repeat match goal with
  | H : fle (Fin _) (Fin _) = true |- _ => apply fle_Fin in H
  | H : fle (Fin _) (Fin _) = false |- _ => apply fle_Fin_false in H
  | H : flt (Fin _) (Fin _) = true |- _ => apply flt_Fin in H
  | H : flt (Fin _) (Fin _) = false |- _ => apply flt_Fin_false in H
  | H : fgt (Fin _) (Fin _) = _ |- _ => unfold fgt in H
  | H : fge (Fin _) (Fin _) = _ |- _ => unfold fge in H
  | H : Qeq_bool _ _ = true |- _ => apply Qeq_bool_iff in H
  | H : Qeq_bool _ _ = false |- _ => apply Qeq_bool_false in H
  | |- fgt (Fin _) (Fin _) = _ => unfold fgt
  | |- fge (Fin _) (Fin _) = _ => unfold fge
  | |- fle (Fin _) (Fin _) = true => apply fle_Fin
  | |- fle (Fin _) (Fin _) = false => apply fle_Fin_false
  | |- flt (Fin _) (Fin _) = true => apply flt_Fin
  | |- flt (Fin _) (Fin _) = false => apply flt_Fin_false
  | |- Qeq_bool _ _ = true => apply Qeq_bool_iff
  | |- Qeq_bool _ _ = false => apply Qeq_bool_false
  end.

(** A strict comparison excludes the converse weak one, NaN included. *)
Lemma flt_fle_false (x y : pyfloat) : flt x y = true -> fle y x = false.
Proof.
  destruct x, y; simpl; try congruence.
  intros H. apply negb_true_iff in H. exact H.
Qed.

Lemma fle_trans (x y z : pyfloat) :
  fle x y = true -> fle y z = true -> fle x z = true.
Proof.
  destruct x, y, z; simpl; try congruence.
  rewrite !Qle_bool_iff. apply Qle_trans.
Qed.

(** ** calculate_ttc *)

(** A sum that is not [<= 0] is a positive finite number, [+inf] or NaN:
    never a zero divisor. *)
Lemma fdiv_positive_total (x y : pyfloat) :
  fle y (Fin 0) = false -> exists v, fdiv x y = Ok v.
Proof.
  intros H. destruct y as [b| | |].
  - fcmp. unfold fdiv.
    destruct (Qeq_bool b 0) eqn:E; [fcmp; lra|].
    destruct x; eauto.
  - destruct x; simpl; eauto.
  - discriminate H.
  - simpl; eauto.
Qed.

Lemma Qsgn_pos (q : Q) : 0 < q -> Qsgn q = 1%Z.
Proof.
  destruct q as [n d]. unfold Qsgn, Qlt. simpl. intros H.
  apply Z.sgn_pos. lia.
Qed.

(** A non-negative dividend over a divisor that is not [<= 0] gives a
    quotient that is not [< 0]. *)
Lemma fdiv_nonneg (x y v : pyfloat) :
  fle (Fin 0) x = true -> fle y (Fin 0) = false ->
  fdiv x y = Ok v -> flt v (Fin 0) = false.
Proof.
  intros Hx Hy Hv. destruct y as [b| | |]; [| | discriminate Hy |].
  - fcmp. unfold fdiv in Hv.
    destruct (Qeq_bool b 0) eqn:E; [discriminate Hv|].
    destruct x as [a| | |]; try discriminate Hx.
    + fcmp. injection Hv as <-. fcmp.
      apply Qle_shift_div_l; lra.
    + simpl in Hv. rewrite (Qsgn_pos b Hy) in Hv. injection Hv as <-.
      reflexivity.
  - destruct x; simpl in Hv; injection Hv as <-; reflexivity.
  - simpl in Hv. injection Hv as <-. reflexivity.
Qed.

(** [calculate_ttc] never raises. *)
Lemma calculate_ttc_total (self : CollisionAvoidanceSystem)
    (distance speed_a speed_b : pyfloat) :
  exists ttc, calculate_ttc self distance speed_a speed_b = Ok ttc.
Proof.
  unfold calculate_ttc.
  destruct (fle (fadd speed_a speed_b) (Fin 0)) eqn:E; [eauto|].
  apply fdiv_positive_total. exact E.
Qed.

(** ** calculate_ttc on ints and binary64 floats *)

Lemma py_le_float_zero (f : spec_float) :
  Binary64.py_le (Binary64.PFloat f) (Binary64.PInt 0)
    = SFleb f (S754_zero false).
Proof.
  destruct f as [s|s| |s m e]; try reflexivity.
  unfold Binary64.py_le, Binary64.float_compare_int, SFleb, SFcompare.
  destruct e as [|k|k]; destruct s; simpl; try reflexivity.
  - assert (H : (Z.neg m * 2 ^ Z.pos k < 0)%Z)
        by (pose proof (Z.pow_pos_nonneg 2 (Z.pos k)); nia).
    apply Z.compare_lt_iff in H. rewrite H. reflexivity.
  - assert (H : (0 < Z.pos m * 2 ^ Z.pos k)%Z)
      by (pose proof (Z.pow_pos_nonneg 2 (Z.pos k)); nia).
    apply Z.compare_gt_iff in H. rewrite H. reflexivity.
Qed.

(** A sum that is not [<= 0] is not a zero. *)
Lemma py_le_zero_false (s : Binary64.pynum) :
  Binary64.py_le s (Binary64.PInt 0) = false ->
  match s with
  | Binary64.PInt n => (n =? 0)%Z = false
  | Binary64.PFloat f => Binary64.is_zero f = false
  end.
Proof.
  destruct s as [n|f]; intros H.
  - simpl in H. apply Z.leb_gt in H. apply Z.eqb_neq. lia.
  - rewrite py_le_float_zero in H. destruct f; try reflexivity.
    discriminate H.
Qed.




(** Rounding and overflow are visible on floats: with the distance 500.0
    and both speeds [float(10 ** 308)] the sum is infinite and the time to
    collision is 0.0, where the exact quotient is positive. *)
Remark calculate_ttc_sum_overflows :
  exists v : spec_float,
    Binary64.float_of_int (10 ^ 308) = Ok v
    /\ Binary64.calculate_ttc cas_system
         (Binary64.PFloat (S754_finite false 500 0))
         (Binary64.PFloat v) (Binary64.PFloat v)
       = Ok (Binary64.PFloat (S754_zero false)).
Proof. eexists. split; vm_compute; reflexivity. Qed.

(** ** calculate_avoidance_maneuver *)

Lemma fle_flt_false (x y : pyfloat) : fle x y = true -> flt y x = false.
Proof.
  intros H. destruct (flt y x) eqn:E; [|reflexivity].
  apply flt_fle_false in E. congruence.
Qed.

(** The safe branch looks at nothing but [ttc]. *)
Lemma maneuver_safe (self : CollisionAvoidanceSystem)
    (car_a car_b : gmap string pyfloat) (ttc : pyfloat) :
  fgt ttc (critical_ttc_threshold self) = true ->
  calculate_avoidance_maneuver self car_a car_b ttc =
    Ok (<["status" := VStr "safe"]>
        (<["alert_level" := VStr "none"]>
        (<["advice" := VStr "Maintain safe distance"]> ∅))).
Proof.
  intros H. unfold calculate_avoidance_maneuver. rewrite H. reflexivity.
Qed.

(** The other branch, for vehicles that carry a speed. *)
Lemma maneuver_imminent (self : CollisionAvoidanceSystem)
    (car_a car_b : gmap string pyfloat) (ttc a b : pyfloat) :
  fgt ttc (critical_ttc_threshold self) = false ->
  car_a !! "speed" = Some a ->
  car_b !! "speed" = Some b ->
  calculate_avoidance_maneuver self car_a car_b ttc =
    Ok (<["status" := VStr "collision_imminent"]>
        (<["alert_level" := VStr (if fle ttc (Fin 5) then "critical" else "warning")]>
        (<["ttc" := VNum (pyround ttc 2)]>
        (<["maneuvers" := VList
             (VStr "Both vehicles reduce speed immediately" ::
              if fge a b then
                [VStr "Vehicle A: Steer right onto shoulder";
                 VStr "Vehicle B: Maintain course, prepare to brake"]
              else
                [VStr "Vehicle B: Steer left onto shoulder";
                 VStr "Vehicle A: Maintain course, prepare to brake"])]>
        (<["safe_maneuver_applied" := VBool true]> ∅))))).
Proof.
  intros H Ha Hb. unfold calculate_avoidance_maneuver, getitem.
  rewrite H, Ha, Hb. simpl. destruct (fge a b); reflexivity.
Qed.

(** C2. With the threshold of the shared instance (10): an advice for
    [ttc > 10] is "safe" with alert level "none" and has no maneuvers
    entry; for [ttc <= 5] it is "collision_imminent" and "critical"; for
    [5 < ttc <= 10] it is "collision_imminent" and "warning".  The bound 5
    belongs to the critical level. *)
Theorem alert_level_by_ttc (car_a car_b : gmap string pyfloat) (ttc : pyfloat) :
  (fgt ttc (Fin 10) = true ->
     exists adv, calculate_avoidance_maneuver cas_system car_a car_b ttc = Ok adv
       /\ adv !! "status" = Some (VStr "safe")
       /\ adv !! "alert_level" = Some (VStr "none")
       /\ adv !! "maneuvers" = None)
  /\ (forall a b : pyfloat,
        car_a !! "speed" = Some a -> car_b !! "speed" = Some b ->
        (fle ttc (Fin 5) = true ->
           exists adv, calculate_avoidance_maneuver cas_system car_a car_b ttc = Ok adv
             /\ adv !! "status" = Some (VStr "collision_imminent")
             /\ adv !! "alert_level" = Some (VStr "critical"))
        /\ (flt (Fin 5) ttc = true -> fle ttc (Fin 10) = true ->
           exists adv, calculate_avoidance_maneuver cas_system car_a car_b ttc = Ok adv
             /\ adv !! "status" = Some (VStr "collision_imminent")
             /\ adv !! "alert_level" = Some (VStr "warning"))).
Proof.
  split.
  - intros H. eexists. split; [apply maneuver_safe; exact H|].
    repeat split; reflexivity.
  - intros a b Ha Hb. split.
    + intros H5.
      assert (H10 : fgt ttc (Fin 10) = false).
      { apply fle_flt_false. apply (fle_trans _ (Fin 5)); [exact H5|]. fcmp. lra. }
      eexists. split; [apply (maneuver_imminent cas_system _ _ _ a b); assumption|].
      rewrite H5. split; reflexivity.
    + intros H5 H10.
      apply fle_flt_false in H10. apply flt_fle_false in H5.
      eexists. split; [apply (maneuver_imminent cas_system _ _ _ a b); assumption|].
      rewrite H5. split; reflexivity.
Qed.

Lemma alert_level_by_ttc_witness :
  (exists adv,
     calculate_avoidance_maneuver cas_system ∅ ∅ (Fin (50 # 3)) = Ok adv
     /\ adv !! "status" = Some (VStr "safe")
     /\ adv !! "alert_level" = Some (VStr "none")
     /\ adv !! "maneuvers" = None)
  /\ (exists adv,
     calculate_avoidance_maneuver cas_system
       (<["speed" := Fin 30]> ∅) (<["speed" := Fin 10]> ∅) (Fin 5) = Ok adv
     /\ adv !! "status" = Some (VStr "collision_imminent")
     /\ adv !! "alert_level" = Some (VStr "critical"))
  /\ (exists adv,
     calculate_avoidance_maneuver cas_system
       (<["speed" := Fin 30]> ∅) (<["speed" := Fin 10]> ∅) (Fin (15 # 2)) = Ok adv
     /\ adv !! "status" = Some (VStr "collision_imminent")
     /\ adv !! "alert_level" = Some (VStr "warning")).
Proof.
  split; [|split].
  - apply (alert_level_by_ttc ∅ ∅ (Fin (50 # 3))). reflexivity.
  - apply (proj2 (alert_level_by_ttc (<["speed" := Fin 30]> ∅)
                    (<["speed" := Fin 10]> ∅) (Fin 5)) (Fin 30) (Fin 10));
      reflexivity.
  - apply (proj2 (alert_level_by_ttc (<["speed" := Fin 30]> ∅)
                    (<["speed" := Fin 10]> ∅) (Fin (15 # 2))) (Fin 30) (Fin 10));
      reflexivity.
Defined.

(** A NaN time to collision passes neither test: the advice is
    "collision_imminent" with level "warning". *)
Remark nan_ttc_is_warning :
  exists adv,
    calculate_avoidance_maneuver cas_system
      (<["speed" := Fin 20]> ∅) (<["speed" := Fin 20]> ∅) NaN = Ok adv
    /\ adv !! "status" = Some (VStr "collision_imminent")
    /\ adv !! "alert_level" = Some (VStr "warning")
    /\ adv !! "ttc" = Some (VNum NaN).
Proof. eexists. split; [reflexivity|]. repeat split; reflexivity. Qed.

(** An advice comes from one of the two branches. *)
Lemma maneuver_cases (self : CollisionAvoidanceSystem)
    (car_a car_b : gmap string pyfloat) (ttc : pyfloat) (adv : gmap string pyval) :
  calculate_avoidance_maneuver self car_a car_b ttc = Ok adv ->
  (fgt ttc (critical_ttc_threshold self) = true
     /\ adv !! "status" = Some (VStr "safe"))
  \/ (fgt ttc (critical_ttc_threshold self) = false
     /\ exists a b, car_a !! "speed" = Some a /\ car_b !! "speed" = Some b).
Proof.
  intros H. destruct (fgt ttc (critical_ttc_threshold self)) eqn:E.
  - left. rewrite (maneuver_safe _ _ _ _ E) in H. injection H as <-.
    split; reflexivity.
  - right. split; [reflexivity|].
    unfold calculate_avoidance_maneuver, getitem in H. rewrite E in H.
    destruct (car_a !! "speed") as [a|]; [|discriminate H].
    destruct (car_b !! "speed") as [b|]; [|discriminate H].
    eauto.
Qed.

(** C5. Every advice with status "collision_imminent" that
    [calculate_avoidance_maneuver] returns carries exactly three maneuver
    instructions (so at least three), in a fixed order: "Both vehicles
    reduce speed immediately" first, then the two vehicle-specific
    instructions; and for every [ttc <= 10] the advice of the shared
    instance has that status. *)
Theorem imminent_maneuvers (car_a car_b : gmap string pyfloat) (ttc : pyfloat) :
  (forall (self : CollisionAvoidanceSystem) (adv : gmap string pyval),
     calculate_avoidance_maneuver self car_a car_b ttc = Ok adv ->
     adv !! "status" = Some (VStr "collision_imminent") ->
     exists (second third : string) (l : list pyval),
       adv !! "maneuvers" = Some (VList l)
       /\ l = [VStr "Both vehicles reduce speed immediately"; VStr second; VStr third]
       /\ (3 <= length l)%nat
       /\ ((second = "Vehicle A: Steer right onto shoulder"
            /\ third = "Vehicle B: Maintain course, prepare to brake")
           \/ (second = "Vehicle B: Steer left onto shoulder"
               /\ third = "Vehicle A: Maintain course, prepare to brake")))
  /\ (forall a b : pyfloat,
        car_a !! "speed" = Some a -> car_b !! "speed" = Some b ->
        fle ttc (Fin 10) = true ->
        exists adv, calculate_avoidance_maneuver cas_system car_a car_b ttc = Ok adv
          /\ adv !! "status" = Some (VStr "collision_imminent")).
Proof.
  split.
  - intros self adv H Hst.
    destruct (maneuver_cases _ _ _ _ _ H) as [[_ Hs] | [E (a & b & Ha & Hb)]].
    + rewrite Hs in Hst. discriminate Hst.
    + rewrite (maneuver_imminent _ _ _ _ a b E Ha Hb) in H. injection H as <-.
      destruct (fge a b);
        do 3 eexists; (split; [reflexivity|]); (split; [reflexivity|]);
        (split; [simpl; lia|]); [left | right]; split; reflexivity.
  - intros a b Ha Hb H10. apply fle_flt_false in H10.
    eexists. split; [apply (maneuver_imminent cas_system _ _ _ a b); assumption|].
    reflexivity.
Qed.

Lemma imminent_maneuvers_witness :
  exists adv,
    calculate_avoidance_maneuver cas_system
      (<["speed" := Fin 20]> ∅) (<["speed" := Fin 20]> ∅) (Fin (5 # 2)) = Ok adv
    /\ adv !! "status" = Some (VStr "collision_imminent")
    /\ exists (second third : string) (l : list pyval),
       adv !! "maneuvers" = Some (VList l)
       /\ l = [VStr "Both vehicles reduce speed immediately"; VStr second; VStr third]
       /\ (3 <= length l)%nat
       /\ ((second = "Vehicle A: Steer right onto shoulder"
            /\ third = "Vehicle B: Maintain course, prepare to brake")
           \/ (second = "Vehicle B: Steer left onto shoulder"
               /\ third = "Vehicle A: Maintain course, prepare to brake")).
Proof.
  destruct (proj2 (imminent_maneuvers (<["speed" := Fin 20]> ∅)
                     (<["speed" := Fin 20]> ∅) (Fin (5 # 2)))
              (Fin 20) (Fin 20)) as (adv & H & Hst); [reflexivity ..|].
  exists adv. split; [exact H|]. split; [exact Hst|].
  exact (proj1 (imminent_maneuvers (<["speed" := Fin 20]> ∅)
                  (<["speed" := Fin 20]> ∅) (Fin (5 # 2))) cas_system adv H Hst).
Defined.

(** C6. In the collision-imminent branch the comparison
    [speed_a >= speed_b] picks the instructions: when it holds (a tie
    included) vehicle A steers right and vehicle B maintains course; when
    it does not, and in particular when [speed_b > speed_a], vehicle B
    steers left and vehicle A maintains course. *)
Theorem faster_vehicle_steers (self : CollisionAvoidanceSystem)
    (car_a car_b : gmap string pyfloat) (ttc speed_a speed_b : pyfloat) :
  fgt ttc (critical_ttc_threshold self) = false ->
  car_a !! "speed" = Some speed_a ->
  car_b !! "speed" = Some speed_b ->
  exists adv, calculate_avoidance_maneuver self car_a car_b ttc = Ok adv
    /\ (fge speed_a speed_b = true ->
        adv !! "maneuvers" = Some (VList
          [VStr "Both vehicles reduce speed immediately";
           VStr "Vehicle A: Steer right onto shoulder";
           VStr "Vehicle B: Maintain course, prepare to brake"]))
    /\ (fge speed_a speed_b = false ->
        adv !! "maneuvers" = Some (VList
          [VStr "Both vehicles reduce speed immediately";
           VStr "Vehicle B: Steer left onto shoulder";
           VStr "Vehicle A: Maintain course, prepare to brake"]))
    /\ (fgt speed_b speed_a = true ->
        adv !! "maneuvers" = Some (VList
          [VStr "Both vehicles reduce speed immediately";
           VStr "Vehicle B: Steer left onto shoulder";
           VStr "Vehicle A: Maintain course, prepare to brake"])).
Proof.
  intros E Ha Hb. eexists.
  split; [apply (maneuver_imminent _ _ _ _ speed_a speed_b); assumption|].
  repeat split.
  - intros ->. reflexivity.
  - intros ->. reflexivity.
  - intros H. unfold fgt in H. apply flt_fle_false in H.
    unfold fge. rewrite H. reflexivity.
Qed.

Lemma faster_vehicle_steers_witness :
  (exists adv,
     calculate_avoidance_maneuver cas_system
       (<["speed" := Fin 20]> ∅) (<["speed" := Fin 20]> ∅) (Fin (5 # 2)) = Ok adv
     /\ adv !! "maneuvers" = Some (VList
          [VStr "Both vehicles reduce speed immediately";
           VStr "Vehicle A: Steer right onto shoulder";
           VStr "Vehicle B: Maintain course, prepare to brake"]))
  /\ (exists adv,
     calculate_avoidance_maneuver cas_system
       (<["speed" := Fin 10]> ∅) (<["speed" := Fin 15]> ∅) (Fin 4) = Ok adv
     /\ adv !! "maneuvers" = Some (VList
          [VStr "Both vehicles reduce speed immediately";
           VStr "Vehicle B: Steer left onto shoulder";
           VStr "Vehicle A: Maintain course, prepare to brake"])).
Proof.
  split.
  - destruct (faster_vehicle_steers cas_system
                (<["speed" := Fin 20]> ∅) (<["speed" := Fin 20]> ∅)
                (Fin (5 # 2)) (Fin 20) (Fin 20))
      as (adv & H & HA & _); [reflexivity ..|].
    exists adv. split; [exact H | exact (HA eq_refl)].
  - destruct (faster_vehicle_steers cas_system
                (<["speed" := Fin 10]> ∅) (<["speed" := Fin 15]> ∅)
                (Fin 4) (Fin 10) (Fin 15))
      as (adv & H & _ & _ & HB); [reflexivity ..|].
    exists adv. split; [exact H | exact (HB eq_refl)].
Defined.

(** ** Negative speeds *)

(** Whatever the speeds, a distance that is non-negative or NaN never
    gives a strictly negative time to collision. *)
Lemma ttc_not_negative (self : CollisionAvoidanceSystem)
    (distance speed_a speed_b ttc : pyfloat) :
  fle (Fin 0) distance = true \/ distance = NaN ->
  calculate_ttc self distance speed_a speed_b = Ok ttc ->
  flt ttc (Fin 0) = false.
Proof.
  intros Hd H. unfold calculate_ttc in H.
  destruct (fle (fadd speed_a speed_b) (Fin 0)) eqn:E.
  - injection H as <-. reflexivity.
  - destruct Hd as [Hd | ->].
    + exact (fdiv_nonneg _ _ _ Hd E H).
    + destruct (fadd speed_a speed_b) as [s| | |]; simpl in H.
      * destruct (Qeq_bool s 0); [discriminate H|]. injection H as <-. reflexivity.
      * injection H as <-. reflexivity.
      * injection H as <-. reflexivity.
      * injection H as <-. reflexivity.
Qed.

(** The endpoint's [abs(...)] is non-negative or NaN. *)
Lemma fabs_nonneg (x : pyfloat) : fle (Fin 0) (fabs x) = true \/ fabs x = NaN.
Proof.
  destruct x as [q| | |]; simpl; auto.
  left. apply Qle_bool_iff. apply Qabs_nonneg.
Qed.




(** ** simulate_avoidance *)

Lemma random_uniform_Fin (a b : Q) (g : rng) :
  random_uniform (Fin a) (Fin b) g
    = (Ok (Fin (a + (b + - a) * g 0%nat)), rng_tail g).
Proof. reflexivity. Qed.

(** A draw from [uniform(a, b)] with [a <= b] lies between [a] and [b]. *)
Lemma uniform_range (a b r : Q) :
  a <= b -> 0 <= r -> r < 1 ->
  a <= a + (b + - a) * r /\ a + (b + - a) * r <= b.
Proof. intros Hab H0 H1. split; nra. Qed.

Section Simulate.

Variable self : CollisionAvoidanceSystem.
Variables car_a car_b : gmap string pyfloat.
Variable avoidance_data : gmap string pyval.
Variable status : pyval.
Hypothesis Hstatus : avoidance_data !! "status" = Some status.

Ltac run_simulation :=
  unfold simulate_avoidance, lift, getitem, mbind, M_bind;
  rewrite Hstatus.

Lemma simulate_safe (g : rng) :
  eq_str status "safe" = true ->
  simulate_avoidance self car_a car_b avoidance_data g
    = (Ok (simulation_record true (Fin (50 + (100 + - 50) * g 0%nat)) "Safe passage"),
       rng_tail g).
Proof. intros Hs. run_simulation. rewrite Hs. reflexivity. Qed.

Lemma simulate_avoided (g : rng) (p : pyfloat) :
  eq_str status "safe" = false ->
  success_probability self avoidance_data = Ok p ->
  flt (Fin (g 0%nat)) p = true ->
  simulate_avoidance self car_a car_b avoidance_data g
    = (Ok (simulation_record true (Fin (5 + (20 + - 5) * g 1%nat))
             "Close call - collision avoided"),
       rng_tail (rng_tail g)).
Proof.
  intros Hs Hp Hr. run_simulation. rewrite Hs, Hp.
  unfold random_random. rewrite Hr. reflexivity.
Qed.

Lemma simulate_collision (g : rng) (p : pyfloat) :
  eq_str status "safe" = false ->
  success_probability self avoidance_data = Ok p ->
  flt (Fin (g 0%nat)) p = false ->
  simulate_avoidance self car_a car_b avoidance_data g
    = (Ok (simulation_record false (Fin 0) "COLLISION OCCURRED"), rng_tail g).
Proof.
  intros Hs Hp Hr. run_simulation. rewrite Hs, Hp.
  unfold random_random. rewrite Hr. reflexivity.
Qed.

End Simulate.

(** C3. For every advice record and every stream of draws from [0, 1):
    if the status is "safe" the result has [collision_avoided] true, a
    [min_distance] in [50, 100] and the outcome "Safe passage";
    otherwise, with [p] the success probability of the record, a first
    draw strictly below [p] gives [collision_avoided] true, a
    [min_distance] in [5, 20] and "Close call - collision avoided", and
    any other first draw gives [collision_avoided] false, [min_distance]
    0 and "COLLISION OCCURRED".  Every record that
    [calculate_avoidance_maneuver] returns with another status than
    "safe" has such a success probability. *)
Theorem simulate_avoidance_outcomes (self : CollisionAvoidanceSystem)
    (car_a car_b : gmap string pyfloat) (avoidance_data : gmap string pyval)
    (status : pyval) (g : rng) :
  rng_ok g ->
  avoidance_data !! "status" = Some status ->
  (eq_str status "safe" = true ->
     exists d : Q,
       fst (simulate_avoidance self car_a car_b avoidance_data g)
         = Ok (simulation_record true (Fin d) "Safe passage")
       /\ 50 <= d /\ d <= 100)
  /\ (forall p : pyfloat,
        eq_str status "safe" = false ->
        success_probability self avoidance_data = Ok p ->
        (flt (Fin (g 0%nat)) p = true ->
           exists d : Q,
             fst (simulate_avoidance self car_a car_b avoidance_data g)
               = Ok (simulation_record true (Fin d) "Close call - collision avoided")
             /\ 5 <= d /\ d <= 20)
        /\ (flt (Fin (g 0%nat)) p = false ->
             fst (simulate_avoidance self car_a car_b avoidance_data g)
               = Ok (simulation_record false (Fin 0) "COLLISION OCCURRED")))
  /\ (forall (car_a' car_b' : gmap string pyfloat) (ttc : pyfloat),
        calculate_avoidance_maneuver self car_a' car_b' ttc = Ok avoidance_data ->
        eq_str status "safe" = false ->
        exists p : pyfloat, success_probability self avoidance_data = Ok p).
Proof.
  intros Hg Hst. split; [|split].
  - intros Hs. eexists. split.
    + rewrite (simulate_safe self car_a car_b _ _ Hst g Hs). reflexivity.
    + destruct (Hg 0%nat). apply uniform_range; lra.
  - intros p Hs Hp. split.
    + intros Hr. eexists. split.
      * rewrite (simulate_avoided self car_a car_b _ _ Hst g p Hs Hp Hr). reflexivity.
      * destruct (Hg 1%nat). apply uniform_range; lra.
    + intros Hr.
      rewrite (simulate_collision self car_a car_b _ _ Hst g p Hs Hp Hr). reflexivity.
  - intros car_a' car_b' ttc H Hs.
    destruct (maneuver_cases _ _ _ _ _ H) as [[_ Hsafe] | [E (a & b & Ha & Hb)]].
    + rewrite Hsafe in Hst. injection Hst as <-. discriminate Hs.
    + rewrite (maneuver_imminent _ _ _ _ a b E Ha Hb) in H. injection H as <-.
      destruct ttc; eexists; reflexivity.
Qed.

Lemma simulate_avoidance_outcomes_witness :
  (exists d : Q,
     fst (simulate_avoidance cas_system ∅ ∅
            (<["status" := VStr "safe"]> ∅) (fun _ => 1 # 2))
       = Ok (simulation_record true (Fin d) "Safe passage")
     /\ 50 <= d /\ d <= 100)
  /\ (exists d : Q,
     fst (simulate_avoidance cas_system ∅ ∅
            (<["status" := VStr "collision_imminent"]> (<["ttc" := VNum (Fin 2.5)]> ∅))
            (fun _ => 1 # 2))
       = Ok (simulation_record true (Fin d) "Close call - collision avoided")
     /\ 5 <= d /\ d <= 20)
  /\ fst (simulate_avoidance cas_system ∅ ∅
            (<["status" := VStr "collision_imminent"]> (<["ttc" := VNum (Fin 2.5)]> ∅))
            (fun _ => 0.99))
       = Ok (simulation_record false (Fin 0) "COLLISION OCCURRED").
Proof.
  assert (Hhalf : rng_ok (fun _ => 1 # 2)) by (intros n; split; lra).
  assert (Hhigh : rng_ok (fun _ => 0.99)) by (intros n; split; lra).
  split; [|split].
  - eapply (simulate_avoidance_outcomes cas_system ∅ ∅
              (<["status" := VStr "safe"]> ∅) (VStr "safe") (fun _ => 1 # 2));
      [exact Hhalf | reflexivity ..].
  - eapply (simulate_avoidance_outcomes cas_system ∅ ∅
              (<["status" := VStr "collision_imminent"]>
                 (<["ttc" := VNum (Fin 2.5)]> ∅))
              (VStr "collision_imminent") (fun _ => 1 # 2));
      [exact Hhalf | reflexivity ..].
  - eapply (simulate_avoidance_outcomes cas_system ∅ ∅
              (<["status" := VStr "collision_imminent"]>
                 (<["ttc" := VNum (Fin 2.5)]> ∅))
              (VStr "collision_imminent") (fun _ => 0.99));
      [exact Hhigh | reflexivity ..].
Defined.

(** A record that is not "safe" and has no [ttc] entry makes the
    simulation raise before any draw. *)
Remark simulate_without_ttc (g : rng) :
  simulate_avoidance cas_system ∅ ∅
    (<["status" := VStr "collision_imminent"]> ∅) g
  = (Raise (KeyError "ttc"), g).
Proof. reflexivity. Qed.

(** ** The success probability *)

Lemma success_probability_ttc (self : CollisionAvoidanceSystem)
    (avoidance_data : gmap string pyval) (t : pyfloat) :
  avoidance_data !! "ttc" = Some (VNum t) ->
  success_probability self avoidance_data = Ok (probability_of t)
  /\ exists q, fdiv t (Fin 20) = Ok q
       /\ probability_of t = pymin (Fin 0.95) (fadd (Fin 0.7) q).
Proof.
  intros H. unfold success_probability, getitem. rewrite H.
  destruct t; simpl; (split; [reflexivity | eexists; split; reflexivity]).
Qed.

Lemma pymin_Fin (a b : Q) : pymin (Fin a) (Fin b) = Fin (Qmin a b).
Proof.
  unfold pymin, Qmin, GenericMinMax.gmin. simpl.
  destruct (Qcompare a b) eqn:E; destruct (Qle_bool a b) eqn:E2;
    simpl; try reflexivity.
  - apply Qeq_alt in E. apply (fle_Fin_false a b) in E2. lra.
  - apply Qlt_alt in E. apply (fle_Fin_false a b) in E2. lra.
  - apply Qgt_alt in E. apply Qle_bool_iff in E2. lra.
Qed.

Lemma Qdiv_20 (x : Q) : x / 20 == x * (1 # 20).
Proof. reflexivity. Qed.

Lemma probability_of_mono (t t' : pyfloat) :
  fle t t' = true -> fle (probability_of t) (probability_of t') = true.
Proof.
  destruct t as [x| | |], t' as [y| | |]; try discriminate; intros H;
    try reflexivity.
  - fcmp. unfold probability_of. rewrite !pymin_Fin. fcmp.
    apply Q.min_le_compat_l. rewrite !Qdiv_20. lra.
  - unfold probability_of. rewrite pymin_Fin. fcmp. apply Q.le_min_l.
  - unfold probability_of. rewrite pymin_Fin. reflexivity.
Qed.

Lemma probability_of_cap (t : pyfloat) : fle (probability_of t) (Fin 0.95) = true.
Proof.
  destruct t as [x| | |]; try reflexivity.
  unfold probability_of. rewrite pymin_Fin. fcmp. apply Q.le_min_l.
Qed.

(** C4. For an advice record whose [ttc] entry is the number [t], the
    success probability is [min(0.95, 0.7 + t / 20)]; in the
    collision-imminent branch the collision is avoided iff the first draw
    is strictly below it; it is non-decreasing in [t], never above 0.95,
    and equal to 0.95 at [t = 10]. *)
Theorem success_probability_spec (self : CollisionAvoidanceSystem)
    (avoidance_data : gmap string pyval) (t : pyfloat) :
  avoidance_data !! "ttc" = Some (VNum t) ->
  (exists q, fdiv t (Fin 20) = Ok q
     /\ success_probability self avoidance_data
          = Ok (pymin (Fin 0.95) (fadd (Fin 0.7) q)))
  /\ (forall x : Q, t = Fin x ->
        success_probability self avoidance_data
          = Ok (Fin (Qmin 0.95 (0.7 + x / 20))))
  /\ (forall (car_a car_b : gmap string pyfloat) (status : pyval) (g : rng),
        avoidance_data !! "status" = Some status ->
        eq_str status "safe" = false ->
        exists p sim,
          success_probability self avoidance_data = Ok p
          /\ fst (simulate_avoidance self car_a car_b avoidance_data g) = Ok sim
          /\ sim !! "collision_avoided" = Some (VBool (flt (Fin (g 0%nat)) p)))
  /\ (forall (avoidance_data' : gmap string pyval) (t' p p' : pyfloat),
        avoidance_data' !! "ttc" = Some (VNum t') ->
        fle t t' = true ->
        success_probability self avoidance_data = Ok p ->
        success_probability self avoidance_data' = Ok p' ->
        fle p p' = true)
  /\ (forall p : pyfloat,
        success_probability self avoidance_data = Ok p ->
        fle p (Fin 0.95) = true)
  /\ (t = Fin 10 -> success_probability self avoidance_data = Ok (Fin 0.95)).
Proof.
  intros Ht.
  destruct (success_probability_ttc self _ _ Ht) as [Hp (q & Hq & Hpq)].
  split; [|split; [|split; [|split; [|split]]]].
  - exists q. split; [exact Hq|]. rewrite Hp, Hpq. reflexivity.
  - intros x ->. rewrite Hp. simpl. rewrite pymin_Fin. reflexivity.
  - intros car_a car_b status g Hst Hs.
    exists (probability_of t).
    destruct (flt (Fin (g 0%nat)) (probability_of t)) eqn:Hr.
    + eexists. split; [exact Hp|]. split.
      * rewrite (simulate_avoided self car_a car_b _ _ Hst g _ Hs Hp Hr).
        reflexivity.
      * reflexivity.
    + eexists. split; [exact Hp|]. split.
      * rewrite (simulate_collision self car_a car_b _ _ Hst g _ Hs Hp Hr).
        reflexivity.
      * reflexivity.
  - intros adv' t' p p' Ht' Hle H1 H2.
    destruct (success_probability_ttc self _ _ Ht') as [Hp' _].
    rewrite Hp in H1. rewrite Hp' in H2.
    injection H1 as <-. injection H2 as <-.
    apply probability_of_mono. exact Hle.
  - intros p H1. rewrite Hp in H1. injection H1 as <-.
    apply probability_of_cap.
  - intros ->. rewrite Hp. reflexivity.
Qed.

Lemma success_probability_spec_witness :
  success_probability cas_system
    (<["status" := VStr "collision_imminent"]> (<["ttc" := VNum (Fin 10)]> ∅))
    = Ok (Fin 0.95)
  /\ success_probability cas_system
    (<["status" := VStr "collision_imminent"]> (<["ttc" := VNum (Fin 2.5)]> ∅))
    = Ok (Fin (Qmin 0.95 (0.7 + 2.5 / 20))).
Proof.
  split.
  - eapply (success_probability_spec cas_system
              (<["status" := VStr "collision_imminent"]> (<["ttc" := VNum (Fin 10)]> ∅))
              (Fin 10)); reflexivity.
  - eapply (success_probability_spec cas_system
              (<["status" := VStr "collision_imminent"]> (<["ttc" := VNum (Fin 2.5)]> ∅))
              (Fin 2.5)); reflexivity.
Defined.

(** ** Rounding *)

Lemma round_half_even_cases (s : Q) :
  (round_half_even s = Qfloor s /\ s - inject_Z (Qfloor s) <= 1 # 2)
  \/ (round_half_even s = (Qfloor s + 1)%Z /\ 1 # 2 <= s - inject_Z (Qfloor s)).
Proof.
  unfold round_half_even.
  destruct (Qcompare (s - inject_Z (Qfloor s)) (1 # 2)) eqn:E.
  - apply Qeq_alt in E. destruct (Z.even (Qfloor s)); [left | right];
      (split; [reflexivity | lra]).
  - apply Qlt_alt in E. left. split; [reflexivity | lra].
  - apply Qgt_alt in E. right. split; [reflexivity | lra].
Qed.

(** The rounded integer is within one half of the argument. *)
Lemma round_half_even_near (s : Q) :
  - (1 # 2) <= inject_Z (round_half_even s) - s
  /\ inject_Z (round_half_even s) - s <= 1 # 2.
Proof.
  pose proof (Qfloor_le s) as Hlo. pose proof (Qlt_floor s) as Hhi.
  rewrite inject_Z_plus in Hhi. change (inject_Z 1) with 1 in Hhi.
  destruct (round_half_even_cases s) as [[-> H] | [-> H]].
  - split; lra.
  - rewrite inject_Z_plus. change (inject_Z 1) with 1. split; lra.
Qed.

(** Rounding does not cross an integer bound. *)
Lemma round_half_even_ge (n : Z) (s : Q) :
  inject_Z n <= s -> (n <= round_half_even s)%Z.
Proof.
  intros H. apply Qfloor_resp_le in H. rewrite Qfloor_Z in H.
  destruct (round_half_even_cases s) as [[-> _] | [-> _]]; lia.
Qed.

Lemma round_half_even_le (n : Z) (s : Q) :
  s <= inject_Z n -> (round_half_even s <= n)%Z.
Proof.
  intros H. pose proof (Qfloor_le s) as Hlo.
  destruct (round_half_even_cases s) as [[-> _] | [-> Hr]].
  - rewrite Zle_Qle. lra.
  - assert (Hlt : inject_Z (Qfloor s) < inject_Z n) by lra.
    rewrite <- Zlt_Qlt in Hlt. lia.
Qed.

Lemma pyround_Fin (x : Q) (ndigits : nat) :
  exists v : Q, pyround (Fin x) ndigits = Fin v /\ is_rounding ndigits x v.
Proof.
  unfold pyround, is_rounding.
  set (p := inject_Z (10 ^ Z.of_nat ndigits)).
  assert (Hp : 0 < p).
  { unfold p. change 0 with (inject_Z 0). rewrite <- Zlt_Qlt.
    apply Z.pow_pos_nonneg; lia. }
  eexists. split; [reflexivity|]. split.
  - eexists. reflexivity.
  - destruct (round_half_even_near (x * p)) as [Hlo Hhi].
    set (k := inject_Z (round_half_even (x * p))) in *.
    assert (E : k / p - x == (k - x * p) / p) by (field; lra).
    rewrite E. apply Qabs_Qle_condition. split.
    + apply Qle_shift_div_l; [exact Hp|].
      assert (E2 : - ((1 # 2) / p) * p == - (1 # 2)) by (field; lra).
      rewrite E2. exact Hlo.
    + apply Qle_shift_div_r; [exact Hp|].
      assert (E2 : (1 # 2) / p * p == 1 # 2) by (field; lra).
      rewrite E2. exact Hhi.
Qed.

(** Rounding to one decimal keeps a value between 60 and 120 there. *)
Lemma pyround_1_range (x : Q) :
  60 <= x -> x <= 120 ->
  exists v : Q, pyround (Fin x) 1 = Fin v /\ 60 <= v /\ v <= 120.
Proof.
  intros Hlo Hhi. unfold pyround.
  change (inject_Z (10 ^ Z.of_nat 1)) with 10.
  eexists. split; [reflexivity|].
  assert (H1 : (600 <= round_half_even (x * 10))%Z).
  { apply round_half_even_ge. change (inject_Z 600) with 600. lra. }
  assert (H2 : (round_half_even (x * 10) <= 1200)%Z).
  { apply round_half_even_le. change (inject_Z 1200) with 1200. lra. }
  rewrite Zle_Qle in H1, H2.
  change (inject_Z 600) with 600 in H1. change (inject_Z 1200) with 1200 in H2.
  set (k := inject_Z (round_half_even (x * 10))) in *.
  assert (E : k / 10 == k * (1 # 10)) by reflexivity.
  rewrite E. split; lra.
Qed.

(** ** The endpoint calculate_collision *)

Lemma getitem_Some {V : Type} (d : gmap string V) (k : string) (v : V) :
  d !! k = Some v -> getitem d k = Ok v.
Proof. intros H. unfold getitem. rewrite H. reflexivity. Qed.

(** The endpoint runs the three operations in sequence; only the last
    one sees the generator. *)
Lemma calculate_collision_run (data : gmap string pyfloat) (g : rng)
    (ttc : pyfloat) (avoidance_data : gmap string pyval) :
  calculate_ttc cas_system (request_distance data)
    (dict_get data "speed_a" (Fin 0)) (dict_get data "speed_b" (Fin 0)) = Ok ttc ->
  calculate_avoidance_maneuver cas_system
    (request_car_a data) (request_car_b data) ttc = Ok avoidance_data ->
  calculate_collision data g =
    match simulate_avoidance cas_system
            (request_car_a data) (request_car_b data) avoidance_data g with
    | (Ok simulation_result, g') =>
        (Ok (response_record data ttc avoidance_data simulation_result), g')
    | (Raise e, g') => (Raise e, g')
    end.
Proof.
  intros Httc Hadv.
  unfold calculate_collision, request_distance, request_car_a, request_car_b in *.
  set (sa := dict_get data "speed_a" (Fin 0)) in *.
  set (sb := dict_get data "speed_b" (Fin 0)) in *.
  set (pa := dict_get data "position_a" (Fin 0)) in *.
  set (pb := dict_get data "position_b" (Fin 500)) in *.
  unfold lift, mbind, M_bind.
  rewrite (getitem_Some _ "position" pb) by reflexivity.
  rewrite (getitem_Some _ "position" pa) by reflexivity.
  rewrite (getitem_Some _ "speed" sa) by reflexivity.
  rewrite (getitem_Some _ "speed" sb) by reflexivity.
  rewrite Httc, Hadv. reflexivity.
Qed.

(** What [simulate_avoidance] does with an advice of the
    collision-imminent branch: the probability comes from the [ttc] entry,
    which holds the rounded value. *)
Lemma simulate_imminent_advice (self : CollisionAvoidanceSystem)
    (car_a car_b : gmap string pyfloat) (ttc a b : pyfloat)
    (avoidance_data : gmap string pyval) :
  fgt ttc (critical_ttc_threshold self) = false ->
  car_a !! "speed" = Some a ->
  car_b !! "speed" = Some b ->
  calculate_avoidance_maneuver self car_a car_b ttc = Ok avoidance_data ->
  avoidance_data !! "status" = Some (VStr "collision_imminent")
  /\ avoidance_data !! "ttc" = Some (VNum (pyround ttc 2))
  /\ success_probability self avoidance_data = Ok (probability_of (pyround ttc 2))
  /\ forall (car_a' car_b' : gmap string pyfloat) (g : rng),
       exists sim g',
         simulate_avoidance self car_a' car_b' avoidance_data g = (Ok sim, g')
         /\ sim !! "collision_avoided"
              = Some (VBool (flt (Fin (g 0%nat)) (probability_of (pyround ttc 2)))).
Proof.
  intros E Ha Hb H.
  rewrite (maneuver_imminent _ _ _ _ a b E Ha Hb) in H. injection H as <-.
  match goal with |- ?d !! _ = _ /\ _ => set (adv := d) end.
  assert (Hst : adv !! "status" = Some (VStr "collision_imminent")) by reflexivity.
  assert (Ht : adv !! "ttc" = Some (VNum (pyround ttc 2))) by reflexivity.
  destruct (success_probability_ttc self adv _ Ht) as [Hp _].
  split; [exact Hst|]. split; [exact Ht|]. split; [exact Hp|].
  intros car_a' car_b' g.
  destruct (flt (Fin (g 0%nat)) (probability_of (pyround ttc 2))) eqn:Hr.
  - do 2 eexists. split.
    + apply (simulate_avoided self car_a' car_b' adv _ Hst g _ eq_refl Hp Hr).
    + reflexivity.
  - do 2 eexists. split.
    + apply (simulate_collision self car_a' car_b' adv _ Hst g _ eq_refl Hp Hr).
    + reflexivity.
Qed.

(** The safe advice has what the simulation reads. *)
Lemma simulate_safe_advice (self : CollisionAvoidanceSystem)
    (car_a car_b car_a' car_b' : gmap string pyfloat) (ttc : pyfloat)
    (avoidance_data : gmap string pyval) (g : rng) :
  fgt ttc (critical_ttc_threshold self) = true ->
  calculate_avoidance_maneuver self car_a car_b ttc = Ok avoidance_data ->
  exists sim g',
    simulate_avoidance self car_a' car_b' avoidance_data g = (Ok sim, g').
Proof.
  intros E H. rewrite (maneuver_safe _ _ _ _ E) in H. injection H as <-.
  do 2 eexists.
  apply (simulate_safe self car_a' car_b' _ (VStr "safe")); reflexivity.
Qed.

(** In the exact model every run of the endpoint goes through the three
    operations and builds the response. *)
Lemma calculate_collision_total (data : gmap string pyfloat) (g : rng) :
  exists ttc adv sim g',
    calculate_ttc cas_system (request_distance data)
      (dict_get data "speed_a" (Fin 0)) (dict_get data "speed_b" (Fin 0)) = Ok ttc
    /\ calculate_avoidance_maneuver cas_system
         (request_car_a data) (request_car_b data) ttc = Ok adv
    /\ simulate_avoidance cas_system
         (request_car_a data) (request_car_b data) adv g = (Ok sim, g')
    /\ calculate_collision data g = (Ok (response_record data ttc adv sim), g').
Proof.
  destruct (calculate_ttc_total cas_system (request_distance data)
              (dict_get data "speed_a" (Fin 0)) (dict_get data "speed_b" (Fin 0)))
    as [ttc Httc].
  assert (Ha : request_car_a data !! "speed" = Some (dict_get data "speed_a" (Fin 0)))
    by reflexivity.
  assert (Hb : request_car_b data !! "speed" = Some (dict_get data "speed_b" (Fin 0)))
    by reflexivity.
  exists ttc.
  destruct (fgt ttc (critical_ttc_threshold cas_system)) eqn:E.
  - pose proof (maneuver_safe cas_system (request_car_a data)
                  (request_car_b data) ttc E) as Hadv.
    destruct (simulate_safe_advice cas_system _ _ (request_car_a data)
                (request_car_b data) _ _ g E Hadv) as (sim & g' & Hrun).
    eexists. exists sim, g'.
    split; [exact Httc|]. split; [exact Hadv|]. split; [exact Hrun|].
    rewrite (calculate_collision_run data g ttc _ Httc Hadv), Hrun. reflexivity.
  - pose proof (maneuver_imminent cas_system _ _ _ _ _ E Ha Hb) as Hadv.
    destruct (simulate_imminent_advice cas_system _ _ _ _ _ _ E Ha Hb Hadv)
      as (_ & _ & _ & Hsim).
    destruct (Hsim (request_car_a data) (request_car_b data) g)
      as (sim & g' & Hrun & _).
    eexists. exists sim, g'.
    split; [exact Httc|]. split; [exact Hadv|]. split; [exact Hrun|].
    rewrite (calculate_collision_run data g ttc _ Httc Hadv), Hrun. reflexivity.
Qed.

(** C10. Composed as in the endpoint, the success probability is
    computed from the advice's [ttc] entry, which holds the raw value
    rounded to two decimals.  For every finite raw [ttc <= 10] the entry
    is a multiple of 0.01 at most 0.005 away from it, [r], and the
    probability is [min(0.95, 0.7 + r / 20)]; a raw [ttc] of minus
    infinity is stored as it is and gives minus infinity.  In every
    response of the endpoint whose advice is "collision_imminent", the
    advice's [ttc] is the rounded value the response shows, and the
    probability computed from it decides [collision_avoided]. *)
Theorem probability_from_rounded_ttc :
  (forall (car_a car_b : gmap string pyfloat) (x : Q) (a b : pyfloat),
     car_a !! "speed" = Some a -> car_b !! "speed" = Some b ->
     x <= 10 ->
     exists (avoidance_data : gmap string pyval) (r : Q),
       calculate_avoidance_maneuver cas_system car_a car_b (Fin x)
         = Ok avoidance_data
       /\ avoidance_data !! "ttc" = Some (VNum (Fin r))
       /\ is_rounding 2 x r
       /\ success_probability cas_system avoidance_data
            = Ok (Fin (Qmin 0.95 (0.7 + r / 20))))
  /\ (forall (car_a car_b : gmap string pyfloat) (a b : pyfloat),
        car_a !! "speed" = Some a -> car_b !! "speed" = Some b ->
        exists avoidance_data : gmap string pyval,
          calculate_avoidance_maneuver cas_system car_a car_b NInf
            = Ok avoidance_data
          /\ avoidance_data !! "ttc" = Some (VNum NInf)
          /\ success_probability cas_system avoidance_data = Ok NInf)
  /\ (forall (data : gmap string pyfloat) (g g' : rng)
             (resp avoidance_data : gmap string pyval),
        calculate_collision data g = (Ok resp, g') ->
        resp !! "avoidance_advice" = Some (VDict avoidance_data) ->
        avoidance_data !! "status" = Some (VStr "collision_imminent") ->
        exists (t q : pyfloat) (sim : gmap string pyval),
          avoidance_data !! "ttc" = Some (VNum t)
          /\ resp !! "ttc" = Some (VNum t)
          /\ fdiv t (Fin 20) = Ok q
          /\ success_probability cas_system avoidance_data
               = Ok (pymin (Fin 0.95) (fadd (Fin 0.7) q))
          /\ resp !! "simulation_result" = Some (VDict sim)
          /\ sim !! "collision_avoided"
               = Some (VBool (flt (Fin (g 0%nat))
                                  (pymin (Fin 0.95) (fadd (Fin 0.7) q))))).
Proof.
  split; [|split].
  - intros car_a car_b x a b Ha Hb Hx.
    assert (H10 : fgt (Fin x) (critical_ttc_threshold cas_system) = false)
      by (apply flt_Fin_false; exact Hx).
    pose proof (maneuver_imminent cas_system _ _ _ a b H10 Ha Hb) as Hadv.
    destruct (simulate_imminent_advice cas_system _ _ _ a b _ H10 Ha Hb Hadv)
      as (_ & Ht & Hp & _).
    destruct (pyround_Fin x 2) as (r & Hr & Hround).
    match type of Hadv with _ = Ok ?d => set (adv := d) in * end.
    rewrite Hr in Ht, Hp.
    eexists. exists r. split; [exact Hadv|]. split; [exact Ht|].
    split; [exact Hround|].
    rewrite Hp. simpl. rewrite pymin_Fin. reflexivity.
  - intros car_a car_b a b Ha Hb.
    assert (H10 : fgt NInf (critical_ttc_threshold cas_system) = false)
      by reflexivity.
    pose proof (maneuver_imminent cas_system _ _ _ a b H10 Ha Hb) as Hadv.
    destruct (simulate_imminent_advice cas_system _ _ _ a b _ H10 Ha Hb Hadv)
      as (_ & Ht & Hp & _).
    eexists. split; [exact Hadv|]. split; [exact Ht | exact Hp].
  - intros data g g' resp adv Hrun Hresp Hst.
    destruct (calculate_collision_total data g)
      as (ttc & adv' & sim & g'' & _ & Hadv & Hsim & Hrun').
    rewrite Hrun' in Hrun. injection Hrun as <- <-.
    assert (adv' = adv) as -> by (unfold response_record in Hresp;
      rewrite !lookup_insert_ne, lookup_insert_eq in Hresp by done; congruence).
    destruct (maneuver_cases _ _ _ _ _ Hadv) as [[_ Hs] | [E (a & b & Ha & Hb)]];
      [rewrite Hs in Hst; discriminate Hst|].
    destruct (simulate_imminent_advice cas_system _ _ _ a b _ E Ha Hb Hadv)
      as (_ & Ht & Hp & Hav).
    destruct (success_probability_ttc cas_system _ _ Ht) as [_ (q & Hq & Hpq)].
    destruct (Hav (request_car_a data) (request_car_b data) g)
      as (sim0 & g0 & Hsim0 & Hc).
    rewrite Hsim in Hsim0. injection Hsim0 as <- <-.
    exists (pyround ttc 2), q, sim.
    split; [exact Ht|]. split; [reflexivity|]. split; [exact Hq|].
    split; [rewrite Hp, Hpq; reflexivity|]. split; [reflexivity|].
    rewrite Hc, Hpq. reflexivity.
Qed.

Lemma probability_from_rounded_ttc_witness :
  exists (avoidance_data : gmap string pyval) (r : Q),
    calculate_avoidance_maneuver cas_system
      (<["speed" := Fin 20]> ∅) (<["speed" := Fin 20]> ∅) (Fin 1.234)
      = Ok avoidance_data
    /\ avoidance_data !! "ttc" = Some (VNum (Fin r))
    /\ r == 1.23
    /\ success_probability cas_system avoidance_data
         = Ok (Fin (Qmin 0.95 (0.7 + r / 20)))
    /\ Qmin 0.95 (0.7 + r / 20) == 0.7615.
Proof.
  destruct (proj1 probability_from_rounded_ttc
              (<["speed" := Fin 20]> ∅) (<["speed" := Fin 20]> ∅)
              1.234 (Fin 20) (Fin 20))
    as (adv & r & Hadv & Ht & _ & Hp); [reflexivity | reflexivity | lra |].
  assert (Hr : r = (123 # 100)).
  { vm_compute in Hadv. injection Hadv as <-.
    vm_compute in Ht. congruence. }
  exists adv, r. split; [exact Hadv|]. split; [exact Ht|].
  split; [rewrite Hr; reflexivity|]. split; [exact Hp|].
  rewrite Hr. reflexivity.
Defined.

(** The rounding is visible: at [ttc = 1.234] the probability computed
    from the advice is 0.7615, not the 0.7617 of the raw value. *)
Remark rounded_ttc_changes_probability :
  exists avoidance_data p,
    calculate_avoidance_maneuver cas_system
      (<["speed" := Fin 20]> ∅) (<["speed" := Fin 20]> ∅) (Fin 1.234)
      = Ok avoidance_data
    /\ success_probability cas_system avoidance_data = Ok (Fin p)
    /\ p == 0.7615
    /\ ~ p == Qmin 0.95 (0.7 + 1.234 / 20).
Proof.
  do 2 eexists. split; [reflexivity|]. split; [reflexivity|].
  split; [reflexivity | discriminate].
Qed.

(** ** Randomness *)

(** The simulation depends on the draws: the same advice gives different
    results at different generator states. *)
Remark simulation_depends_on_draws :
  fst (simulate_avoidance cas_system ∅ ∅
         (<["status" := VStr "collision_imminent"]> (<["ttc" := VNum (Fin 2.5)]> ∅))
         (fun _ => 1 # 2))
  <> fst (simulate_avoidance cas_system ∅ ∅
         (<["status" := VStr "collision_imminent"]> (<["ttc" := VNum (Fin 2.5)]> ∅))
         (fun _ => 0.99)).
Proof.
  intros H.
  apply (f_equal (fun r => match r with
                           | Ok sim => sim !! "collision_avoided"
                           | Raise _ => None
                           end)) in H.
  vm_compute in H. discriminate H.
Qed.

(** ** The endpoint generate_random_scenario *)

Lemma generate_random_scenario_run (g : rng) :
  generate_random_scenario g =
    (Ok (scenario_record
           (pyround (Fin (60 + (120 + - 60) * g 0%nat)) 1)
           (pyround (Fin (60 + (120 + - 60) * g 1%nat)) 1)
           (pyround (Fin ((60 + (120 + - 60) * g 0%nat) / 3.6)) 1)
           (pyround (Fin ((60 + (120 + - 60) * g 1%nat) / 3.6)) 1)),
     rng_tail (rng_tail g)).
Proof. reflexivity. Qed.

(** C8. For every stream of draws from [0, 1), the scenario is built from
    two drawn speeds in [60, 120]: the returned [speed_a] and [speed_b]
    are these speeds rounded to one decimal and lie in [60, 120], and the
    returned [speed_a_ms] and [speed_b_ms] are the same drawn speeds
    divided by 3.6, rounded to one decimal. *)
Theorem random_scenario_speeds (g : rng) :
  rng_ok g ->
  exists drawn_a drawn_b speed_a speed_b speed_a_ms speed_b_ms : Q,
    fst (generate_random_scenario g)
      = Ok (scenario_record (Fin speed_a) (Fin speed_b)
              (Fin speed_a_ms) (Fin speed_b_ms))
    /\ (60 <= drawn_a /\ drawn_a <= 120)
    /\ (60 <= drawn_b /\ drawn_b <= 120)
    /\ pyround (Fin drawn_a) 1 = Fin speed_a
    /\ pyround (Fin drawn_b) 1 = Fin speed_b
    /\ pyround (Fin (drawn_a / 3.6)) 1 = Fin speed_a_ms
    /\ pyround (Fin (drawn_b / 3.6)) 1 = Fin speed_b_ms
    /\ (60 <= speed_a /\ speed_a <= 120)
    /\ (60 <= speed_b /\ speed_b <= 120)
    /\ is_rounding 1 drawn_a speed_a
    /\ is_rounding 1 drawn_b speed_b
    /\ is_rounding 1 (drawn_a / 3.6) speed_a_ms
    /\ is_rounding 1 (drawn_b / 3.6) speed_b_ms.
Proof.
  intros Hg.
  pose proof (generate_random_scenario_run g) as Hrun.
  set (ua := 60 + (120 + - 60) * g 0%nat) in *.
  set (ub := 60 + (120 + - 60) * g 1%nat) in *.
  assert (Ha : 60 <= ua /\ ua <= 120).
  { destruct (Hg 0%nat). apply uniform_range; lra. }
  assert (Hb : 60 <= ub /\ ub <= 120).
  { destruct (Hg 1%nat). apply uniform_range; lra. }
  destruct (pyround_1_range ua) as (ra & Era & Hra); [lra ..|].
  destruct (pyround_1_range ub) as (rb & Erb & Hrb); [lra ..|].
  destruct (pyround_Fin ua 1) as (ra' & Era' & Rra).
  destruct (pyround_Fin ub 1) as (rb' & Erb' & Rrb).
  destruct (pyround_Fin (ua / 3.6) 1) as (ma & Ema & Rma).
  destruct (pyround_Fin (ub / 3.6) 1) as (mb & Emb & Rmb).
  assert (ra' = ra) as -> by congruence.
  assert (rb' = rb) as -> by congruence.
  exists ua, ub, ra, rb, ma, mb.
  split; [rewrite Hrun, Era, Erb, Ema, Emb; reflexivity|].
  repeat (split; [assumption|]). assumption.
Qed.

Lemma random_scenario_speeds_witness :
  exists speed_a speed_b speed_a_ms speed_b_ms : Q,
    fst (generate_random_scenario (fun _ => 1 # 2))
      = Ok (scenario_record (Fin speed_a) (Fin speed_b)
              (Fin speed_a_ms) (Fin speed_b_ms))
    /\ (60 <= speed_a /\ speed_a <= 120)
    /\ (60 <= speed_b /\ speed_b <= 120).
Proof.
  assert (Hhalf : rng_ok (fun _ => 1 # 2)) by (intros n; split; lra).
  destruct (random_scenario_speeds (fun _ => 1 # 2) Hhalf)
    as (ua & ub & ra & rb & ma & mb & Hrun & _ & _ & _ & _ & _ & _ & Hra & Hrb & _).
  exists ra, rb, ma, mb. repeat split; try assumption; tauto.
Defined.

(** The speed in m/s comes from the drawn speed, not from the returned
    rounded one: for a drawn 60.659 km/h the response has [speed_a] 60.7
    and [speed_a_ms] 16.8, while 60.7 / 3.6 rounds to 16.9. *)
Remark speed_ms_from_drawn_speed :
  exists speed_a speed_a_ms v : Q,
    fst (generate_random_scenario (fun _ => 659 # 60000))
      = Ok (scenario_record (Fin speed_a) (Fin speed_a) (Fin speed_a_ms) (Fin speed_a_ms))
    /\ speed_a == 60.7
    /\ speed_a_ms == 16.8
    /\ pyround (Fin (speed_a / 3.6)) 1 = Fin v
    /\ v == 16.9.
Proof.
  do 3 eexists. split; [reflexivity|].
  split; [reflexivity|]. split; [reflexivity|]. split; reflexivity.
Qed.

(** * Further properties *)

(** ** The shape of an advice *)

(** Away from NaN the two comparisons are complementary. *)
Lemma fle_false_flt (x y : pyfloat) :
  x <> NaN -> y <> NaN -> fle x y = false -> flt y x = true.
Proof.
  destruct x, y; simpl; try congruence.
  intros _ _ H. rewrite H. reflexivity.
Qed.

Lemma flt_false_fle (x y : pyfloat) :
  x <> NaN -> y <> NaN -> flt x y = false -> fle y x = true.
Proof.
  destruct x, y; simpl; try congruence.
  intros _ _ H. apply negb_false_iff in H. exact H.
Qed.

(** X1. An advice has one of two shapes.  The safe one has exactly the
    keys status, alert_level and advice, with the fixed text; the other
    has exactly status, alert_level, ttc, maneuvers and
    safe_maneuver_applied, the flag being true and the ttc entry the
    argument rounded to two decimals. *)
Theorem advice_shape (self : CollisionAvoidanceSystem)
    (car_a car_b : gmap string pyfloat) (ttc : pyfloat)
    (adv : gmap string pyval) :
  calculate_avoidance_maneuver self car_a car_b ttc = Ok adv ->
  (fgt ttc (critical_ttc_threshold self) = true
   /\ dom adv = {[ "status"; "alert_level"; "advice" ]}
   /\ adv !! "status" = Some (VStr "safe")
   /\ adv !! "alert_level" = Some (VStr "none")
   /\ adv !! "advice" = Some (VStr "Maintain safe distance"))
  \/ (fgt ttc (critical_ttc_threshold self) = false
      /\ dom adv = {[ "status"; "alert_level"; "ttc"; "maneuvers";
                      "safe_maneuver_applied" ]}
      /\ adv !! "status" = Some (VStr "collision_imminent")
      /\ adv !! "ttc" = Some (VNum (pyround ttc 2))
      /\ adv !! "safe_maneuver_applied" = Some (VBool true)).
Proof.
  intros H.
  destruct (maneuver_cases _ _ _ _ _ H) as [[E _] | [E (a & b & Ha & Hb)]].
  - left. rewrite (maneuver_safe _ _ _ _ E) in H. injection H as <-.
    split; [exact E|]. split.
    + rewrite !dom_insert_L, dom_empty_L. set_solver.
    + repeat split; reflexivity.
  - right. rewrite (maneuver_imminent _ _ _ _ a b E Ha Hb) in H.
    injection H as <-. split; [exact E|]. split.
    + rewrite !dom_insert_L, dom_empty_L. set_solver.
    + repeat split; reflexivity.
Qed.

Lemma advice_shape_witness :
  exists adv,
    calculate_avoidance_maneuver cas_system
      (<["speed" := Fin 20]> ∅) (<["speed" := Fin 20]> ∅) (Fin 2.5) = Ok adv
    /\ dom adv = {[ "status"; "alert_level"; "ttc"; "maneuvers";
                    "safe_maneuver_applied" ]}
    /\ adv !! "safe_maneuver_applied" = Some (VBool true).
Proof.
  destruct (calculate_avoidance_maneuver cas_system
              (<["speed" := Fin 20]> ∅) (<["speed" := Fin 20]> ∅) (Fin 2.5))
    as [adv|e] eqn:H; [|vm_compute in H; discriminate H].
  exists adv. split; [reflexivity|].
  destruct (advice_shape cas_system (<["speed" := Fin 20]> ∅)
              (<["speed" := Fin 20]> ∅) (Fin 2.5) adv H)
    as [(E & _) | (_ & Hdom & _ & _ & Hflag)].
  - vm_compute in E. discriminate E.
  - split; assumption.
Defined.

(** X2. The alert level of an advice of the shared instance tells where
    the time to collision was: "none" only for [ttc > 10], "critical" only
    for [ttc <= 5], and "warning" only when neither [ttc <= 5] nor
    [ttc > 10] holds, which for a number other than NaN means
    [5 < ttc <= 10]. *)
Theorem alert_level_reflects_ttc (car_a car_b : gmap string pyfloat)
    (ttc : pyfloat) (adv : gmap string pyval) :
  calculate_avoidance_maneuver cas_system car_a car_b ttc = Ok adv ->
  (adv !! "alert_level" = Some (VStr "none") -> fgt ttc (Fin 10) = true)
  /\ (adv !! "alert_level" = Some (VStr "critical") ->
      fle ttc (Fin 5) = true /\ fgt ttc (Fin 10) = false)
  /\ (adv !! "alert_level" = Some (VStr "warning") ->
      fle ttc (Fin 5) = false /\ fgt ttc (Fin 10) = false
      /\ (ttc <> NaN -> flt (Fin 5) ttc = true /\ fle ttc (Fin 10) = true)).
Proof.
  intros H.
  destruct (maneuver_cases _ _ _ _ _ H) as [[E _] | [E (a & b & Ha & Hb)]].
  - rewrite (maneuver_safe _ _ _ _ E) in H. injection H as <-.
    split; [intros _; exact E|].
    split; intros Hl; vm_compute in Hl; discriminate Hl.
  - rewrite (maneuver_imminent _ _ _ _ a b E Ha Hb) in H. injection H as <-.
    change (critical_ttc_threshold cas_system) with (Fin 10) in E.
    rewrite lookup_insert_ne, lookup_insert_eq by done.
    split; [destruct (fle ttc (Fin 5)); intros Hl; discriminate Hl|].
    destruct (fle ttc (Fin 5)) eqn:E5.
    + split; [intros _; split; [reflexivity | exact E]|].
      intros Hl. discriminate Hl.
    + split; [intros Hl; discriminate Hl|].
      intros _. split; [reflexivity|]. split; [exact E|].
      intros Hnan. split.
      * apply fle_false_flt; [exact Hnan | discriminate | exact E5].
      * apply flt_false_fle; [discriminate | exact Hnan | exact E].
Qed.

Lemma alert_level_reflects_ttc_witness :
  exists adv,
    calculate_avoidance_maneuver cas_system
      (<["speed" := Fin 20]> ∅) (<["speed" := Fin 20]> ∅) (Fin 7.5) = Ok adv
    /\ adv !! "alert_level" = Some (VStr "warning")
    /\ flt (Fin 5) (Fin 7.5) = true /\ fle (Fin 7.5) (Fin 10) = true.
Proof.
  destruct (calculate_avoidance_maneuver cas_system
              (<["speed" := Fin 20]> ∅) (<["speed" := Fin 20]> ∅) (Fin 7.5))
    as [adv|e] eqn:H; [|vm_compute in H; discriminate H].
  exists adv. split; [reflexivity|].
  assert (Hl : adv !! "alert_level" = Some (VStr "warning")).
  { vm_compute in H. injection H as <-. reflexivity. }
  split; [exact Hl|].
  destruct (alert_level_reflects_ttc (<["speed" := Fin 20]> ∅)
              (<["speed" := Fin 20]> ∅) (Fin 7.5) adv H) as (_ & _ & Hw).
  apply (Hw Hl). discriminate.
Defined.

(** ** Missing speeds *)

(** X3. [calculate_avoidance_maneuver] raises exactly when the time to
    collision is not above the threshold and one of the vehicles has no
    "speed" entry, and what it raises is [KeyError "speed"]; above the
    threshold the vehicles are not looked at. *)
Theorem maneuver_raises_iff (self : CollisionAvoidanceSystem)
    (car_a car_b : gmap string pyfloat) (ttc : pyfloat) :
  (forall e : exn,
     calculate_avoidance_maneuver self car_a car_b ttc = Raise e <->
     e = KeyError "speed"
     /\ fgt ttc (critical_ttc_threshold self) = false
     /\ (car_a !! "speed" = None \/ car_b !! "speed" = None))
  /\ (fgt ttc (critical_ttc_threshold self) = true ->
      exists adv, calculate_avoidance_maneuver self car_a car_b ttc = Ok adv).
Proof.
  split.
  - intros e. unfold calculate_avoidance_maneuver, getitem.
    destruct (fgt ttc (critical_ttc_threshold self)).
    + split; [discriminate | intros (_ & E & _); discriminate E].
    + destruct (car_a !! "speed") as [a|]; [destruct (car_b !! "speed") as [b|]|];
        simpl.
      * split; [discriminate | intros (_ & _ & [E | E]); discriminate E].
      * split; [intros [= <-]; auto | intros (-> & _); reflexivity].
      * split; [intros [= <-]; auto | intros (-> & _); reflexivity].
  - intros E. eexists. apply maneuver_safe. exact E.
Qed.

Lemma maneuver_raises_iff_witness :
  calculate_avoidance_maneuver cas_system ∅ (<["speed" := Fin 20]> ∅) (Fin 2.5)
    = Raise (KeyError "speed")
  /\ exists adv, calculate_avoidance_maneuver cas_system ∅ ∅ (Fin 50) = Ok adv.
Proof.
  split.
  - apply (proj1 (maneuver_raises_iff cas_system ∅ (<["speed" := Fin 20]> ∅)
                    (Fin 2.5))).
    split; [reflexivity|]. split; [reflexivity|]. left. reflexivity.
  - apply (proj2 (maneuver_raises_iff cas_system ∅ ∅ (Fin 50))). reflexivity.
Defined.

(** X4. The advice is a function of the threshold, the two speeds and the
    time to collision: the positions, any other entry of the vehicles and
    [trigger_distance] have no influence on it. *)
Theorem advice_reads_speeds_only (self self' : CollisionAvoidanceSystem)
    (car_a car_b car_a' car_b' : gmap string pyfloat) (ttc : pyfloat) :
  critical_ttc_threshold self = critical_ttc_threshold self' ->
  car_a !! "speed" = car_a' !! "speed" ->
  car_b !! "speed" = car_b' !! "speed" ->
  calculate_avoidance_maneuver self car_a car_b ttc
    = calculate_avoidance_maneuver self' car_a' car_b' ttc.
Proof.
  intros Hthr Ha Hb. unfold calculate_avoidance_maneuver, getitem.
  rewrite Hthr, Ha, Hb. reflexivity.
Qed.

Lemma advice_reads_speeds_only_witness :
  calculate_avoidance_maneuver cas_system
    (<["speed" := Fin 30]> (<["position" := Fin 0]> ∅))
    (<["speed" := Fin 10]> (<["position" := Fin 200]> ∅)) (Fin 5)
  = calculate_avoidance_maneuver
      {| critical_ttc_threshold := Fin 10; trigger_distance := Fin 0 |}
      (<["speed" := Fin 30]> (<["position" := Fin (-70)]> ∅))
      (<["speed" := Fin 10]> ∅) (Fin 5).
Proof.
  apply (advice_reads_speeds_only cas_system
           {| critical_ttc_threshold := Fin 10; trigger_distance := Fin 0 |});
    reflexivity.
Defined.

(** ** Failures of simulate_avoidance *)



(** ** Successful runs of simulate_avoidance *)

(** A successful run went through one of the three branches. *)
Lemma simulate_cases (self : CollisionAvoidanceSystem)
    (car_a car_b : gmap string pyfloat) (avoidance_data : gmap string pyval)
    (g g' : rng) (sim : gmap string pyval) :
  simulate_avoidance self car_a car_b avoidance_data g = (Ok sim, g') ->
  (sim = simulation_record true (Fin (50 + (100 + - 50) * g 0%nat)) "Safe passage"
   /\ g' = rng_tail g)
  \/ (sim = simulation_record true (Fin (5 + (20 + - 5) * g 1%nat))
            "Close call - collision avoided"
      /\ g' = rng_tail (rng_tail g))
  \/ (sim = simulation_record false (Fin 0) "COLLISION OCCURRED"
      /\ g' = rng_tail g).
Proof.
  intros H.
  destruct (avoidance_data !! "status") as [status|] eqn:Hst.
  - destruct (eq_str status "safe") eqn:Hs.
    { rewrite (simulate_safe self car_a car_b _ _ Hst g Hs) in H.
      injection H as <- <-. auto. }
    destruct (success_probability self avoidance_data) as [p|e] eqn:Hp.
    + destruct (flt (Fin (g 0%nat)) p) eqn:Hr.
      * rewrite (simulate_avoided self car_a car_b _ _ Hst g p Hs Hp Hr) in H.
        injection H as <- <-. auto.
      * rewrite (simulate_collision self car_a car_b _ _ Hst g p Hs Hp Hr) in H.
        injection H as <- <-. auto.
    + unfold simulate_avoidance, lift, getitem, mbind, M_bind in H.
      rewrite Hst, Hs, Hp in H. discriminate H.
  - unfold simulate_avoidance, lift, getitem, mbind, M_bind in H.
    rewrite Hst in H. discriminate H.
Qed.

(** X6. Whatever the advice, a result of [simulate_avoidance] on draws
    from [0, 1) has exactly the keys collision_avoided, min_distance and
    outcome, and they agree: when the collision is avoided the minimal
    distance is between 5 and 100 and the outcome is not
    "COLLISION OCCURRED"; when it is not, the minimal distance is 0 and
    the outcome is "COLLISION OCCURRED". *)
Theorem simulation_result_consistent (self : CollisionAvoidanceSystem)
    (car_a car_b : gmap string pyfloat) (avoidance_data : gmap string pyval)
    (g g' : rng) (sim : gmap string pyval) :
  rng_ok g ->
  simulate_avoidance self car_a car_b avoidance_data g = (Ok sim, g') ->
  dom sim = {[ "collision_avoided"; "min_distance"; "outcome" ]}
  /\ exists (avoided : bool) (d : Q) (outcome : string),
       sim = simulation_record avoided (Fin d) outcome
       /\ (avoided = true ->
           5 <= d /\ d <= 100 /\ outcome <> "COLLISION OCCURRED"%string)
       /\ (avoided = false ->
           d = 0 /\ outcome = "COLLISION OCCURRED"%string).
Proof.
  intros Hg H.
  destruct (Hg 0%nat) as [H0 H0']. destruct (Hg 1%nat) as [H1 H1'].
  assert (Hdom : forall b d o,
             dom (simulation_record b d o)
               = {[ "collision_avoided"; "min_distance"; "outcome" ]}).
  { intros b d o. unfold simulation_record.
    rewrite !dom_insert_L, dom_empty_L. set_solver. }
  destruct (simulate_cases _ _ _ _ _ _ _ H) as [[-> _] | [[-> _] | [-> _]]];
    (split; [apply Hdom|]); do 3 eexists; (split; [reflexivity|]).
  - split; [intros _ | discriminate].
    split; [|split; [|discriminate]]; nra.
  - split; [intros _ | discriminate].
    split; [|split; [|discriminate]]; nra.
  - split; [discriminate | intros _]. split; reflexivity.
Qed.

Lemma simulation_result_consistent_witness :
  exists (avoided : bool) (d : Q) (outcome : string),
    fst (simulate_avoidance cas_system ∅ ∅
           (<["status" := VStr "collision_imminent"]> (<["ttc" := VNum (Fin 2.5)]> ∅))
           (fun _ => 1 # 2))
      = Ok (simulation_record avoided (Fin d) outcome)
    /\ (avoided = true ->
        5 <= d /\ d <= 100 /\ outcome <> "COLLISION OCCURRED"%string).
Proof.
  assert (Hhalf : rng_ok (fun _ => 1 # 2)) by (intros n; split; lra).
  destruct (simulate_avoidance cas_system ∅ ∅
              (<["status" := VStr "collision_imminent"]> (<["ttc" := VNum (Fin 2.5)]> ∅))
              (fun _ => 1 # 2)) as [[sim|e] g'] eqn:H;
    [|vm_compute in H; discriminate H].
  destruct (simulation_result_consistent _ _ _ _ _ _ _ Hhalf H)
    as (_ & avoided & d & outcome & -> & Hav & _).
  exists avoided, d, outcome. split; [reflexivity | exact Hav].
Defined.

(** X7. The draws a call takes from the generator: [simulate_avoidance]
    takes one, and a second one exactly when its outcome is
    "Close call - collision avoided"; a run of the endpoint
    [calculate_collision] that answers has taken the draws of its
    simulation, one or two; [generate_random_scenario] takes two, so that
    the second speed of a scenario is the first speed of the scenario
    generated from the stream one draw later. *)
Theorem draws_taken :
  (forall (self : CollisionAvoidanceSystem) (car_a car_b : gmap string pyfloat)
          (avoidance_data sim : gmap string pyval) (g g' : rng),
     simulate_avoidance self car_a car_b avoidance_data g = (Ok sim, g') ->
     (sim !! "outcome" = Some (VStr "Close call - collision avoided")
      /\ g' = rng_tail (rng_tail g))
     \/ (sim !! "outcome" <> Some (VStr "Close call - collision avoided")
         /\ g' = rng_tail g))
  /\ (forall (data : gmap string pyfloat) (g g' : rng)
             (resp : gmap string pyval),
        calculate_collision data g = (Ok resp, g') ->
        exists sim : gmap string pyval,
          resp !! "simulation_result" = Some (VDict sim)
          /\ ((sim !! "outcome" = Some (VStr "Close call - collision avoided")
               /\ g' = rng_tail (rng_tail g))
              \/ (sim !! "outcome" <> Some (VStr "Close call - collision avoided")
                  /\ g' = rng_tail g)))
  /\ (forall g : rng,
        exists sc sc',
          generate_random_scenario g = (Ok sc, rng_tail (rng_tail g))
          /\ fst (generate_random_scenario (rng_tail g)) = Ok sc'
          /\ sc !! "speed_b" = sc' !! "speed_a"
          /\ sc !! "speed_b_ms" = sc' !! "speed_a_ms").
Proof.
  split; [|split].
  - intros self car_a car_b adv sim g g' H.
    destruct (simulate_cases _ _ _ _ _ _ _ H) as [[-> ->] | [[-> ->] | [-> ->]]].
    + right. split; [discriminate | reflexivity].
    + left. split; reflexivity.
    + right. split; [discriminate | reflexivity].
  - intros data g g' resp H.
    destruct (calculate_collision_total data g)
      as (ttc & adv & sim & g'' & _ & _ & Hsim & Hrun).
    rewrite Hrun in H. injection H as <- <-.
    exists sim. split; [reflexivity|].
    destruct (simulate_cases _ _ _ _ _ _ _ Hsim) as [[-> ->] | [[-> ->] | [-> ->]]].
    + right. split; [discriminate | reflexivity].
    + left. split; reflexivity.
    + right. split; [discriminate | reflexivity].
  - intros g. do 2 eexists.
    split; [apply generate_random_scenario_run|].
    split; [rewrite generate_random_scenario_run; reflexivity|].
    split; reflexivity.
Qed.

Lemma draws_taken_witness :
  exists sim g',
    simulate_avoidance cas_system ∅ ∅
      (<["status" := VStr "collision_imminent"]> (<["ttc" := VNum (Fin 2.5)]> ∅))
      (fun _ => 1 # 2) = (Ok sim, g')
    /\ sim !! "outcome" = Some (VStr "Close call - collision avoided")
    /\ g' = rng_tail (rng_tail (fun _ => 1 # 2)).
Proof.
  destruct (simulate_avoidance cas_system ∅ ∅
              (<["status" := VStr "collision_imminent"]> (<["ttc" := VNum (Fin 2.5)]> ∅))
              (fun _ => 1 # 2)) as [[sim|e] g'] eqn:H;
    [|vm_compute in H; discriminate H].
  exists sim, g'. split; [reflexivity|].
  destruct (proj1 draws_taken _ _ _ _ _ _ _ H) as [Hclose | [Hother _]].
  - exact Hclose.
  - exfalso. apply Hother.
    assert (E : fst (simulate_avoidance cas_system ∅ ∅
                (<["status" := VStr "collision_imminent"]>
                   (<["ttc" := VNum (Fin 2.5)]> ∅))
                (fun _ => 1 # 2)) = Ok sim) by (rewrite H; reflexivity).
    vm_compute in E. injection E as <-. reflexivity.
Defined.

(** ** The response of calculate_collision *)

(** X8. A response of the endpoint is a dictionary of exactly six keys.
    It echoes the two vehicles with the defaults filled in (speed 0 for
    both, position 0 for A and 500 for B); its [ttc] is a value rounded
    to two decimals, and its advice and simulation result are those of
    the two methods run on these vehicles with that value and the
    generator of the request. *)
Theorem response_shape (data : gmap string pyfloat) (g g' : rng)
    (resp : gmap string pyval) :
  calculate_collision data g = (Ok resp, g') ->
  dom resp = {[ "distance"; "ttc"; "avoidance_advice";
                "simulation_result"; "car_a"; "car_b" ]}
  /\ resp !! "car_a" = Some (VDict
       (<["speed" := VNum (default (Fin 0) (data !! "speed_a"))]>
        (<["position" := VNum (default (Fin 0) (data !! "position_a"))]> ∅)))
  /\ resp !! "car_b" = Some (VDict
       (<["speed" := VNum (default (Fin 0) (data !! "speed_b"))]>
        (<["position" := VNum (default (Fin 500) (data !! "position_b"))]> ∅)))
  /\ exists (ttc : pyfloat) (adv sim : gmap string pyval),
       resp !! "ttc" = Some (VNum (pyround ttc 2))
       /\ resp !! "avoidance_advice" = Some (VDict adv)
       /\ resp !! "simulation_result" = Some (VDict sim)
       /\ calculate_avoidance_maneuver cas_system
            (request_car_a data) (request_car_b data) ttc = Ok adv
       /\ simulate_avoidance cas_system
            (request_car_a data) (request_car_b data) adv g = (Ok sim, g').
Proof.
  intros H.
  destruct (calculate_collision_total data g)
    as (ttc & adv & sim & g'' & _ & Hadv & Hsim & Hrun).
  rewrite Hrun in H. injection H as <- <-.
  split.
  { unfold response_record. rewrite !dom_insert_L, dom_empty_L. set_solver. }
  split.
  { unfold response_record, request_car_a, dict_get.
    rewrite !lookup_insert_ne, lookup_insert_eq by done.
    rewrite !fmap_insert, fmap_empty. reflexivity. }
  split.
  { unfold response_record, request_car_b, dict_get.
    rewrite !lookup_insert_ne, lookup_insert_eq by done.
    rewrite !fmap_insert, fmap_empty. reflexivity. }
  exists ttc, adv, sim. repeat split; try reflexivity; assumption.
Qed.

Lemma response_shape_witness :
  exists (resp : gmap string pyval) (g' : rng),
    calculate_collision (<["speed_a" := Fin 30]> ∅) (fun _ => 1 # 2)
      = (Ok resp, g')
    /\ resp !! "car_a" = Some (VDict
         (<["speed" := VNum (Fin 30)]> (<["position" := VNum (Fin 0)]> ∅)))
    /\ resp !! "car_b" = Some (VDict
         (<["speed" := VNum (Fin 0)]> (<["position" := VNum (Fin 500)]> ∅))).
Proof.
  destruct (calculate_collision (<["speed_a" := Fin 30]> ∅) (fun _ => 1 # 2))
    as [[resp|e] g'] eqn:H; [|vm_compute in H; discriminate H].
  exists resp, g'. split; [reflexivity|].
  destruct (response_shape _ _ _ _ H) as (_ & Ha & Hb & _).
  split; [exact Ha | exact Hb].
Defined.

(** X9. The [ttc] of the response and the [ttc] entry of its advice are
    the same value whenever the advice has one, and the advice has none
    exactly when it is "safe". *)
Theorem response_ttc_matches_advice (data : gmap string pyfloat) (g g' : rng)
    (resp : gmap string pyval) :
  calculate_collision data g = (Ok resp, g') ->
  exists adv,
    resp !! "avoidance_advice" = Some (VDict adv)
    /\ (forall v, adv !! "ttc" = Some v -> resp !! "ttc" = Some v)
    /\ (adv !! "ttc" = None <-> adv !! "status" = Some (VStr "safe")).
Proof.
  intros H.
  destruct (calculate_collision_total data g)
    as (ttc & adv & sim & g'' & _ & Hadv & _ & Hrun).
  rewrite Hrun in H. injection H as <- <-.
  exists adv. split; [reflexivity|].
  destruct (maneuver_cases _ _ _ _ _ Hadv) as [[E _] | [E (a & b & Ha & Hb)]].
  - rewrite (maneuver_safe _ _ _ _ E) in Hadv. injection Hadv as <-.
    split; [intros v Hv; discriminate Hv|]. split; reflexivity.
  - rewrite (maneuver_imminent _ _ _ _ a b E Ha Hb) in Hadv.
    injection Hadv as <-.
    split; [intros v Hv; injection Hv as <-; reflexivity|].
    split; intros Hx; discriminate Hx.
Qed.

Lemma response_ttc_matches_advice_witness :
  exists resp adv v,
    fst (calculate_collision
           (<["speed_a" := Fin 20]> (<["speed_b" := Fin 20]>
              (<["position_b" := Fin 100]> ∅))) (fun _ => 1 # 2)) = Ok resp
    /\ resp !! "avoidance_advice" = Some (VDict adv)
    /\ adv !! "ttc" = Some v
    /\ resp !! "ttc" = Some v.
Proof.
  destruct (calculate_collision
              (<["speed_a" := Fin 20]> (<["speed_b" := Fin 20]>
                 (<["position_b" := Fin 100]> ∅))) (fun _ => 1 # 2))
    as [[resp|e] g'] eqn:H; [|vm_compute in H; discriminate H].
  destruct (response_ttc_matches_advice _ _ _ _ H) as (adv & Hadv & Hv & Hnone).
  destruct (adv !! "ttc") as [v|] eqn:Ht.
  - exists resp, adv, v. repeat split; try assumption. apply Hv. reflexivity.
  - exfalso. pose proof (proj1 Hnone eq_refl) as Hsafe.
    assert (E : fst (calculate_collision
                (<["speed_a" := Fin 20]> (<["speed_b" := Fin 20]>
                   (<["position_b" := Fin 100]> ∅))) (fun _ => 1 # 2)) = Ok resp)
      by (rewrite H; reflexivity).
    vm_compute in E. injection E as <-.
    vm_compute in Hadv. injection Hadv as <-.
    vm_compute in Hsafe. discriminate Hsafe.
Defined.

(** ** From the request to the alert *)

(** X10. A request whose numbers are of the size of a float and whose
    speeds (0 when missing) do not add up to a positive closing speed is
    answered with an infinite [ttc], the "safe" advice and a
    "Safe passage" simulation with a minimal distance between 50 and 100,
    after exactly one draw. *)
Theorem no_closing_speed_is_safe (data : gmap string pyfloat) (g : rng) :
  rng_ok g ->
  float_sized (dict_get data "position_a" (Fin 0)) ->
  float_sized (dict_get data "position_b" (Fin 500)) ->
  float_sized (dict_get data "speed_a" (Fin 0)) ->
  float_sized (dict_get data "speed_b" (Fin 0)) ->
  fle (fadd (dict_get data "speed_a" (Fin 0)) (dict_get data "speed_b" (Fin 0)))
      (Fin 0) = true ->
  exists (resp : gmap string pyval) (d : Q),
    calculate_collision data g = (Ok resp, rng_tail g)
    /\ resp !! "ttc" = Some (VNum PInf)
    /\ resp !! "avoidance_advice" = Some (VDict
         (<["status" := VStr "safe"]>
          (<["alert_level" := VStr "none"]>
          (<["advice" := VStr "Maintain safe distance"]> ∅))))
    /\ resp !! "simulation_result"
         = Some (VDict (simulation_record true (Fin d) "Safe passage"))
    /\ 50 <= d /\ d <= 100.
Proof.
  intros Hg _ _ _ _ Hs.
  assert (Httc : calculate_ttc cas_system (request_distance data)
            (dict_get data "speed_a" (Fin 0)) (dict_get data "speed_b" (Fin 0))
            = Ok PInf).
  { unfold calculate_ttc. rewrite Hs. reflexivity. }
  assert (E : fgt PInf (critical_ttc_threshold cas_system) = true) by reflexivity.
  pose proof (maneuver_safe cas_system (request_car_a data) (request_car_b data)
                PInf E) as Hadv.
  do 2 eexists. split.
  - rewrite (calculate_collision_run data g PInf _ Httc Hadv).
    erewrite (simulate_safe cas_system _ _ _ (VStr "safe")); reflexivity.
  - split; [reflexivity|]. split; [reflexivity|]. split; [reflexivity|].
    destruct (Hg 0%nat). apply uniform_range; lra.
Qed.

Lemma no_closing_speed_is_safe_witness :
  exists (resp : gmap string pyval) (d : Q),
    calculate_collision ∅ (fun _ => 1 # 2) = (Ok resp, rng_tail (fun _ => 1 # 2))
    /\ resp !! "ttc" = Some (VNum PInf)
    /\ resp !! "simulation_result"
         = Some (VDict (simulation_record true (Fin d) "Safe passage"))
    /\ 50 <= d /\ d <= 100.
Proof.
  assert (Hhalf : rng_ok (fun _ => 1 # 2)) by (intros n; split; lra).
  destruct (no_closing_speed_is_safe ∅ (fun _ => 1 # 2) Hhalf)
    as (resp & d & Hrun & Httc & _ & Hsim & Hd);
    [vm_compute; reflexivity .. | reflexivity |].
  exists resp, d. repeat split; try assumption; apply Hd.
Defined.

(** ** The time to collision as a function of its arguments *)

Lemma Qplus_comm_eq (a b : Q) : (a + b)%Q = (b + a)%Q.
Proof.
  destruct a as [an ad], b as [bn bd]. unfold Qplus. simpl.
  f_equal; [ring | apply Pos.mul_comm].
Qed.

Lemma fadd_comm (x y : pyfloat) : fadd x y = fadd y x.
Proof.
  destruct x, y; simpl; try reflexivity. f_equal. apply Qplus_comm_eq.
Qed.

Lemma calculate_ttc_Fin (self : CollisionAvoidanceSystem) (d a b : Q) :
  calculate_ttc self (Fin d) (Fin a) (Fin b)
    = if Qle_bool (a + b) 0 then Ok PInf else Ok (Fin (d / (a + b))).
Proof.
  unfold calculate_ttc. cbn [fadd fle fdiv].
  destruct (Qle_bool (a + b) 0) eqn:E1; [reflexivity|].
  destruct (Qeq_bool (a + b) 0) eqn:E2; [|reflexivity].
  apply Qeq_bool_iff in E2. apply (fle_Fin_false (a + b) 0) in E1. lra.
Qed.



(** ** The success probability seen from the alert level *)

(** Rounding to two decimals does not cross a multiple of 0.01. *)
Lemma pyround_2_between (t : Q) :
  exists r : Q, pyround (Fin t) 2 = Fin r
    /\ (forall n : Z, inject_Z n <= t * 100 -> inject_Z n <= r * 100)
    /\ (forall n : Z, t * 100 <= inject_Z n -> r * 100 <= inject_Z n).
Proof.
  unfold pyround. change (inject_Z (10 ^ Z.of_nat 2)) with 100.
  eexists. split; [reflexivity|].
  set (k := round_half_even (t * 100)).
  assert (E : inject_Z k / 100 * 100 == inject_Z k) by (field; lra).
  split; intros n Hn; rewrite E; rewrite <- Zle_Qle.
  - apply round_half_even_ge. exact Hn.
  - apply round_half_even_le. exact Hn.
Qed.

Lemma probability_of_Fin_cases (r : Q) :
  (0.95 <= 0.7 + r / 20 /\ probability_of (Fin r) = Fin 0.95)
  \/ (0.7 + r / 20 < 0.95 /\ probability_of (Fin r) = Fin (0.7 + r / 20)).
Proof.
  unfold probability_of, pymin.
  destruct (flt (Fin (0.7 + r / 20)) (Fin 0.95)) eqn:E; fcmp; auto.
Qed.

(** X13. For a finite time to collision, an advice of level "warning" is
    simulated with the capped probability 0.95, and an advice of level
    "critical" with [0.7 + r / 20], where [r <= 5] is the time rounded to
    two decimals; that value is at most 0.95, and at least 0.7 when the
    time is not negative. *)
Theorem probability_by_alert_level (car_a car_b : gmap string pyfloat)
    (t : Q) (adv : gmap string pyval) :
  calculate_avoidance_maneuver cas_system car_a car_b (Fin t) = Ok adv ->
  (adv !! "alert_level" = Some (VStr "warning") ->
     success_probability cas_system adv = Ok (Fin 0.95))
  /\ (adv !! "alert_level" = Some (VStr "critical") ->
      exists r p : Q,
        pyround (Fin t) 2 = Fin r
        /\ success_probability cas_system adv = Ok (Fin p)
        /\ r <= 5
        /\ p == 0.7 + r / 20
        /\ p <= 0.95
        /\ (0 <= t -> 0.7 <= p)).
Proof.
  intros H.
  destruct (maneuver_cases _ _ _ _ _ H) as [[E _] | [E (a & b & Ha & Hb)]].
  - rewrite (maneuver_safe _ _ _ _ E) in H. injection H as <-.
    split; intros Hl; vm_compute in Hl; discriminate Hl.
  - destruct (simulate_imminent_advice cas_system _ _ _ a b _ E Ha Hb H)
      as (_ & _ & Hp & _).
    rewrite (maneuver_imminent _ _ _ _ a b E Ha Hb) in H. injection H as <-.
    rewrite lookup_insert_ne, lookup_insert_eq by done.
    destruct (pyround_2_between t) as (r & Hr & Hlo & Hhi).
    rewrite Hr in Hp. rewrite Hp.
    destruct (Qle_bool t 5) eqn:E5;
      [apply Qle_bool_iff in E5 | apply (fle_Fin_false t 5) in E5].
    + split; [intros Hl; discriminate Hl|]. intros _.
      pose proof (Hhi 500%Z) as H500. change (inject_Z 500) with 500 in H500.
      assert (Hr5 : r <= 5) by (assert (t * 100 <= 500) by lra; lra).
      pose proof (Qdiv_20 r) as Hd.
      destruct (probability_of_Fin_cases r) as [[Hc ->] | [Hc ->]].
      * exists r, 0.95. split; [exact Hr|]. split; [reflexivity|].
        split; [exact Hr5|]. split; [lra|]. split; [lra|]. intros _. lra.
      * exists r, (0.7 + r / 20). split; [exact Hr|]. split; [reflexivity|].
        split; [exact Hr5|]. split; [reflexivity|]. split; [lra|].
        intros Ht. pose proof (Hlo 0%Z) as H0. change (inject_Z 0) with 0 in H0.
        assert (0 <= r) by (assert (0 <= t * 100) by lra; lra). lra.
    + split; [|intros Hl; discriminate Hl]. intros _.
      pose proof (Hlo 500%Z) as H500. change (inject_Z 500) with 500 in H500.
      assert (Hr5 : 5 <= r) by (assert (500 <= t * 100) by lra; lra).
      pose proof (Qdiv_20 r) as Hd.
      destruct (probability_of_Fin_cases r) as [[_ ->] | [Hc _]];
        [reflexivity | lra].
Qed.

Lemma probability_by_alert_level_witness :
  exists adv,
    calculate_avoidance_maneuver cas_system
      (<["speed" := Fin 20]> ∅) (<["speed" := Fin 20]> ∅) (Fin 7.5) = Ok adv
    /\ success_probability cas_system adv = Ok (Fin 0.95).
Proof.
  destruct (calculate_avoidance_maneuver cas_system
              (<["speed" := Fin 20]> ∅) (<["speed" := Fin 20]> ∅) (Fin 7.5))
    as [adv|e] eqn:H; [|vm_compute in H; discriminate H].
  exists adv. split; [reflexivity|].
  apply (proj1 (probability_by_alert_level _ _ _ _ H)).
  vm_compute in H. injection H as <-. reflexivity.
Defined.

(** X14. The cap leaves a residual risk and the base a floor: for any
    advice that is not "safe" and has a number as [ttc], a first draw of
    0.95 or more always ends in "COLLISION OCCURRED", and when that [ttc]
    is not negative a first draw below 0.7 always ends in a close call. *)
Theorem residual_risk (self : CollisionAvoidanceSystem)
    (car_a car_b : gmap string pyfloat) (avoidance_data : gmap string pyval)
    (status : pyval) (t : pyfloat) (g : rng) :
  avoidance_data !! "status" = Some status ->
  eq_str status "safe" = false ->
  avoidance_data !! "ttc" = Some (VNum t) ->
  (0.95 <= g 0%nat ->
     simulate_avoidance self car_a car_b avoidance_data g
       = (Ok (simulation_record false (Fin 0) "COLLISION OCCURRED"), rng_tail g))
  /\ (fle (Fin 0) t = true -> g 0%nat < 0.7 ->
      simulate_avoidance self car_a car_b avoidance_data g
        = (Ok (simulation_record true (Fin (5 + (20 + - 5) * g 1%nat))
                 "Close call - collision avoided"),
           rng_tail (rng_tail g))).
Proof.
  intros Hst Hs Ht.
  destruct (success_probability_ttc self _ _ Ht) as [Hp _].
  split.
  - intros Hr. apply (simulate_collision self car_a car_b _ _ Hst g _ Hs Hp).
    pose proof (probability_of_cap t) as Hcap.
    destruct (probability_of t) as [p| | |]; try discriminate Hcap;
      [|reflexivity].
    fcmp. lra.
  - intros Hpos Hr. apply (simulate_avoided self car_a car_b _ _ Hst g _ Hs Hp).
    destruct t as [x| | |]; try discriminate Hpos.
    + fcmp. pose proof (Qdiv_20 x) as Hd.
      destruct (probability_of_Fin_cases x) as [[_ ->] | [_ ->]]; fcmp; lra.
    + change (flt (Fin (g 0%nat)) (Fin 0.95) = true). fcmp. lra.
Qed.

Lemma residual_risk_witness :
  simulate_avoidance cas_system ∅ ∅
    (<["status" := VStr "collision_imminent"]> (<["ttc" := VNum (Fin 10)]> ∅))
    (fun _ => 0.97)
  = (Ok (simulation_record false (Fin 0) "COLLISION OCCURRED"),
     rng_tail (fun _ => 0.97))
  /\ simulate_avoidance cas_system ∅ ∅
    (<["status" := VStr "collision_imminent"]> (<["ttc" := VNum (Fin 0)]> ∅))
    (fun _ => 0.6)
  = (Ok (simulation_record true (Fin (5 + (20 + - 5) * 0.6))
           "Close call - collision avoided"),
     rng_tail (rng_tail (fun _ => 0.6))).
Proof.
  split.
  - eapply (proj1 (residual_risk cas_system ∅ ∅ _ (VStr "collision_imminent")
                     (Fin 10) (fun _ => 0.97) _ _ _)).
    lra.
  - eapply (proj2 (residual_risk cas_system ∅ ∅ _ (VStr "collision_imminent")
                     (Fin 0) (fun _ => 0.6) _ _ _));
      [reflexivity | lra].
  Unshelve. all: reflexivity.
Defined.

(** ** The speeds of a random scenario in m/s *)

Lemma rounding_1_unfold (x v : Q) :
  is_rounding 1 x v ->
  (exists k : Z, v == inject_Z k * (1 # 10))
  /\ - (1 # 20) <= v - x /\ v - x <= 1 # 20.
Proof.
  intros [[k Hk] Habs].
  change (inject_Z (10 ^ Z.of_nat 1)) with 10 in *.
  apply Qabs_Qle_condition in Habs. destruct Habs as [Hlo Hhi].
  assert (E : (1 # 2) / 10 == 1 # 20) by reflexivity.
  rewrite E in Hlo, Hhi.
  split; [|split; assumption].
  exists k. rewrite Hk. reflexivity.
Qed.

Lemma speed_ms_range (u m : Q) :
  60 <= u -> u <= 120 -> is_rounding 1 (u / 3.6) m ->
  16.7 <= m /\ m <= 33.3.
Proof.
  intros Hlo Hhi Hm.
  destruct (rounding_1_unfold _ _ Hm) as ([k Hk] & H1 & H2).
  assert (E : u / 3.6 == u * (10 # 36)) by reflexivity.
  rewrite E in H1, H2.
  assert (Hk1 : inject_Z 166 < inject_Z k)
    by (change (inject_Z 166) with 166; lra).
  assert (Hk2 : inject_Z k < inject_Z 334)
    by (change (inject_Z 334) with 334; lra).
  rewrite <- Zlt_Qlt in Hk1, Hk2.
  assert (Hk3 : (167 <= k)%Z) by lia.
  assert (Hk4 : (k <= 333)%Z) by lia.
  rewrite Zle_Qle in Hk3, Hk4.
  change (inject_Z 167) with 167 in Hk3. change (inject_Z 333) with 333 in Hk4.
  split; lra.
Qed.

(** X15. In every random scenario the returned speeds in m/s lie between
    16.7 and 33.3, and each agrees with the returned speed in km/h up to
    the two roundings: [|speed_ms * 3.6 - speed|] is at most 0.23. *)
Theorem scenario_ms_consistent (g : rng) :
  rng_ok g ->
  exists speed_a speed_b speed_a_ms speed_b_ms : Q,
    fst (generate_random_scenario g)
      = Ok (scenario_record (Fin speed_a) (Fin speed_b)
              (Fin speed_a_ms) (Fin speed_b_ms))
    /\ (16.7 <= speed_a_ms /\ speed_a_ms <= 33.3)
    /\ (16.7 <= speed_b_ms /\ speed_b_ms <= 33.3)
    /\ Qabs (speed_a_ms * 3.6 - speed_a) <= 0.23
    /\ Qabs (speed_b_ms * 3.6 - speed_b) <= 0.23.
Proof.
  intros Hg.
  pose proof (generate_random_scenario_run g) as Hrun.
  set (ua := 60 + (120 + - 60) * g 0%nat) in *.
  set (ub := 60 + (120 + - 60) * g 1%nat) in *.
  assert (Ha : 60 <= ua /\ ua <= 120).
  { destruct (Hg 0%nat). apply uniform_range; lra. }
  assert (Hb : 60 <= ub /\ ub <= 120).
  { destruct (Hg 1%nat). apply uniform_range; lra. }
  destruct (pyround_Fin ua 1) as (ra & Era & Rra).
  destruct (pyround_Fin ub 1) as (rb & Erb & Rrb).
  destruct (pyround_Fin (ua / 3.6) 1) as (ma & Ema & Rma).
  destruct (pyround_Fin (ub / 3.6) 1) as (mb & Emb & Rmb).
  exists ra, rb, ma, mb.
  split; [rewrite Hrun, Era, Erb, Ema, Emb; reflexivity|].
  split; [apply (speed_ms_range ua); tauto|].
  split; [apply (speed_ms_range ub); tauto|].
  destruct (rounding_1_unfold _ _ Rra) as (_ & Ha1 & Ha2).
  destruct (rounding_1_unfold _ _ Rrb) as (_ & Hb1 & Hb2).
  destruct (rounding_1_unfold _ _ Rma) as (_ & Hm1 & Hm2).
  destruct (rounding_1_unfold _ _ Rmb) as (_ & Hn1 & Hn2).
  assert (Ea : ua / 3.6 == ua * (10 # 36)) by reflexivity.
  assert (Eb : ub / 3.6 == ub * (10 # 36)) by reflexivity.
  rewrite Ea in Hm1, Hm2. rewrite Eb in Hn1, Hn2.
  split; apply Qabs_Qle_condition; split; lra.
Qed.

Lemma scenario_ms_consistent_witness :
  exists speed_a speed_b speed_a_ms speed_b_ms : Q,
    fst (generate_random_scenario (fun _ => 1 # 2))
      = Ok (scenario_record (Fin speed_a) (Fin speed_b)
              (Fin speed_a_ms) (Fin speed_b_ms))
    /\ (16.7 <= speed_a_ms /\ speed_a_ms <= 33.3)
    /\ Qabs (speed_a_ms * 3.6 - speed_a) <= 0.23.
Proof.
  assert (Hhalf : rng_ok (fun _ => 1 # 2)) by (intros n; split; lra).
  destruct (scenario_ms_consistent (fun _ => 1 # 2) Hhalf)
    as (ra & rb & ma & mb & Hrun & Hma & _ & Hca & _).
  exists ra, rb, ma, mb. split; [exact Hrun|]. split; assumption.
Defined.
